(** * Tenant reconciler of the 3scale operator

    A shallow embedding of [pkg/controller/tenant/internal_reconciler.go]
    and the properties of its reconciliation run.

    The reconciler talks to two collaborators, the 3scale (porta) client and
    the Kubernetes client.  Both are interfaces here: a run is a function of
    the reconciler (the tenant resource it holds and the world behind the two
    clients) that returns a result, the reconciler afterwards and the events
    it emitted, in order.  Identifiers are Go [int64] values that are only
    compared, never computed with, and are kept as [Z]. *)

From stdpp Require Import base decidable option list strings gmap.
From Stdlib Require Import ZArith String DecimalString.

Local Open Scope Z_scope.
Local Open Scope string_scope.
Local Open Scope list_scope.

(** ** Data of the porta client package *)

(** [porta_client_pkg.Params] is a [map[string]string]. *)
Abbreviation Params := (gmap string string).

Module Account.
Record t := mk {
  ID : Z;
  OrgName : string;
  SupportEmail : string;
  AdminDomain : string
}.
End Account.

Module Signup.
Record t := mk { Account : Account.t }.
End Signup.

Module Tenant.
Record t := mk { Signup : Signup.t }.
End Tenant.

Module User.
Record t := mk {
  ID : Z;
  State : string;
  UserName : string;
  Email : string;
  Role : string
}.
End User.

Module UserElem.
Record t := mk { User : User.t }.
End UserElem.

Module UserList.
Record t := mk { Users : list UserElem.t }.
End UserList.

Module Application.
Record t := mk { UserKey : string }.
End Application.

Module ApplicationElem.
Record t := mk { Application : Application.t }.
End ApplicationElem.

Module ApplicationList.
Record t := mk { Applications : list ApplicationElem.t }.
End ApplicationList.

(** ** Data of the Kubernetes API *)

Module SecretReference.
Record t := mk { Name : string; Namespace : string }.
End SecretReference.

Module NamespacedName.
Record t := mk { Name : string; Namespace : string }.
End NamespacedName.

Module OwnerReference.
Record t := mk { Kind : string; Name : string; Controller : bool }.
End OwnerReference.

Module Secret.
Record t := mk {
  APIVersion : string;
  Kind : string;
  Namespace : string;
  Name : string;
  Labels : gmap string string;
  OwnerReferences : list OwnerReference.t;
  Data : gmap string (list Byte.byte);
  StringData : gmap string string;
  Type_ : string
}.
End Secret.

(** ** The Tenant custom resource, [apiv1alpha1.Tenant]

    The types of the API package are declared outside this file. *)

Module TenantSpec.
(** Modelled from the spec: the organization name, the username and email
    of the admin, the reference to the secret with the password of the admin,
    and the reference to where the token secret is written. *)
Record t := mk {
  Username : string;
  Email : string;
  OrganizationName : string;
  PasswordCredentialsRef : SecretReference.t;
  TenantSecretRef : SecretReference.t
}.
End TenantSpec.

Module TenantStatus.
(** Modelled from the spec: the remote account id and the remote admin user
    id, each zero when unknown. *)
Record t := mk { TenantId : Z; AdminId : Z }.

#[global] Instance eq_dec : EqDecision t.
Proof. solve_decision. Defined.
End TenantStatus.

Module TenantCR.
(** Modelled from the spec: the identity of the resource (namespace and
    name), its spec and its status. *)
Record t := mk {
  Namespace : string;
  Name : string;
  Spec : TenantSpec.t;
  Status : TenantStatus.t
}.

Definition with_Status (st : TenantStatus.t) (x : t) : t :=
  mk (Namespace x) (Name x) (Spec x) st.
End TenantCR.

(** ** Errors

    Errors of the collaborators are opaque to the reconciler, which only asks
    whether one is a not-found error, with the [IsNotFound] of the package the
    error comes from.  The three errors the reconciler builds itself with
    [fmt.Errorf] are kept with the text it formats; [Panic] stands for a Go
    run-time panic. *)

Inductive error :=
| PortaError (notFound : bool) (detail : string)
| K8sError (notFound : bool) (detail : string)
| Errorf (msg : string)
| Panic (msg : string).

Definition porta_IsNotFound (e : error) : bool :=
  match e with PortaError nf _ => nf | _ => false end.

Definition k8s_IsNotFound (e : error) : bool :=
  match e with K8sError nf _ => nf | _ => false end.

(** [%d] of an [int64]. *)
Definition fmt_d (z : Z) : string := NilZero.string_of_int (Z.to_int z).

(** A Go [(T, error)] pair. *)
Inductive Result (A : Type) :=
| Ok (a : A)
| Err (e : error).
Arguments Ok {A} a.
Arguments Err {A} e.

(** ** Events of a run: the calls on the collaborators and the log lines *)

Inductive Event :=
| ShowTenantCall (id : Z)
| CreateTenantCall (orgName username email password : string)
| UpdateTenantCall (id : Z) (params : Params)
| ListUsersCall (accountID : Z) (filterParams : Params)
| ReadUserCall (accountID userID : Z)
| UpdateUserCall (accountID userID : Z) (params : Params)
| ActivateUserCall (accountID userID : Z)
| ListApplicationsCall (accountID : Z)
| GetCall (nn : NamespacedName.t)
| CreateCall (secret : Secret.t)
| StatusUpdateCall (tenantR : TenantCR.t)
| LogInfo (msg : string).

(** The calls that change something on the other side. *)
Definition is_write (ev : Event) : bool :=
  match ev with
  | CreateTenantCall _ _ _ _ | UpdateTenantCall _ _ | UpdateUserCall _ _ _
  | ActivateUserCall _ _ | CreateCall _ | StatusUpdateCall _ => true
  | _ => false
  end.

Definition is_CreateTenantCall (ev : Event) : bool :=
  match ev with CreateTenantCall _ _ _ _ => true | _ => false end.
Definition is_UpdateTenantCall (ev : Event) : bool :=
  match ev with UpdateTenantCall _ _ => true | _ => false end.
Definition is_ActivateUserCall (ev : Event) : bool :=
  match ev with ActivateUserCall _ _ => true | _ => false end.
Definition is_UpdateUserCall (ev : Event) : bool :=
  match ev with UpdateUserCall _ _ _ => true | _ => false end.
Definition is_ListUsersCall (ev : Event) : bool :=
  match ev with ListUsersCall _ _ => true | _ => false end.
Definition is_CreateCall (ev : Event) : bool :=
  match ev with CreateCall _ => true | _ => false end.
Definition is_StatusUpdateCall (ev : Event) : bool :=
  match ev with StatusUpdateCall _ => true | _ => false end.

(** What each of the four stages of a run can emit. *)
Definition tenant_stage_event (ev : Event) : bool :=
  match ev with
  | ShowTenantCall _ | GetCall _ | CreateTenantCall _ _ _ _ | UpdateTenantCall _ _
  | LogInfo _ => true
  | _ => false
  end.

Definition admin_stage_event (ev : Event) : bool :=
  match ev with
  | ListUsersCall _ _ | ReadUserCall _ _ | ActivateUserCall _ _ | UpdateUserCall _ _ _
  | LogInfo _ => true
  | _ => false
  end.

Definition secret_stage_event (ev : Event) : bool :=
  match ev with
  | GetCall _ | ListApplicationsCall _ | CreateCall _ | LogInfo _ => true
  | _ => false
  end.

Definition status_stage_event (ev : Event) : bool :=
  match ev with
  | StatusUpdateCall _ | LogInfo _ => true
  | _ => false
  end.

(** ** The collaborators

    [W] is the state of the world behind the clients: the remote control
    plane and the cluster.  A call maps the world to an answer and the world
    after the call. *)

Class ThreeScaleClient (W : Type) := {
  ShowTenant : Z → W → Result Tenant.t * W;
  CreateTenant : string → string → string → string → W → Result Tenant.t * W;
  UpdateTenant : Z → Params → W → Result Tenant.t * W;
  ListUsers : Z → Params → W → Result UserList.t * W;
  ReadUser : Z → Z → W → Result User.t * W;
  UpdateUser : Z → Z → Params → W → Result User.t * W;
  ActivateUser : Z → Z → W → Result unit * W;
  ListApplications : Z → W → Result ApplicationList.t * W
}.

Class K8sClient (W : Type) := {
  Get : NamespacedName.t → W → Result Secret.t * W;
  Create : Secret.t → W → Result unit * W;
  StatusUpdate : TenantCR.t → W → Result unit * W
}.

(** What the package holds outside this file: the names of the secret
    fields, the admin URL of a domain and the owner reference of a tenant
    resource. *)
Class Package := {
  TenantAdminPasswordSecretField : string;
  TenantProviderKeySecretField : string;
  TenantAdminDomainKeySecretField : string;
  URL : Type;
  URLFromDomain : string → Result URL;
  URL_String : URL → string;
  asOwner : TenantCR.t → OwnerReference.t
}.

(** Modelled from the spec: [addOwnerRefToObject] is not in this file; the
    secret gets an ownership back-reference to the tenant resource, added to
    the references it has. *)
Definition addOwnerRefToObject (o : Secret.t) (r : OwnerReference.t) : Secret.t :=
  Secret.mk (Secret.APIVersion o) (Secret.Kind o) (Secret.Namespace o)
    (Secret.Name o) (Secret.Labels o) (Secret.OwnerReferences o ++ [r])
    (Secret.Data o) (Secret.StringData o) (Secret.Type_ o).

(** ** The reconciler and its monad *)

(** [InternalReconciler] holds the tenant resource (behind a pointer in Go,
    so an assignment to its status is seen by all later steps) and the world
    the two clients act on. *)
Record InternalReconciler (W : Type) := mkReconciler {
  tenantR : TenantCR.t;
  world : W
}.
Arguments mkReconciler {W} _ _.
Arguments tenantR {W} _.
Arguments world {W} _.

(** A method of the reconciler: it returns a value or an error, the
    reconciler afterwards, and the events it emitted in order. *)
Definition M (W A : Type) : Type :=
  InternalReconciler W → Result A * InternalReconciler W * list Event.

#[global] Instance M_ret {W} : MRet (M W) :=
  λ A a r, (Ok a, r, []).

#[global] Instance M_bind {W} : MBind (M W) :=
  λ A B f m r,
    match m r with
    | (Ok a, r1, t1) =>
        match f a r1 with
        | (y, r2, t2) => (y, r2, t1 ++ t2)
        end
    | (Err e, r1, t1) => (Err e, r1, t1)
    end.

(** [return ..., err] with a non-nil error. *)
Definition fail {W A} (e : error) : M W A :=
  λ r, (Err e, r, []).

(** Runs a step and hands its [(value, err)] pair to the caller, for the
    places where the caller inspects the error itself. *)
Definition attempt {W A} (m : M W A) : M W (Result A) :=
  λ r, match m r with (x, r1, t1) => (Ok x, r1, t1) end.

(** [r.tenantR], read and assigned. *)
Definition read_tenantR {W} : M W TenantCR.t :=
  λ r, (Ok (tenantR r), r, []).

Definition assign_Status {W} (st : TenantStatus.t) : M W unit :=
  λ r, (Ok tt, mkReconciler (TenantCR.with_Status st (tenantR r)) (world r), []).

(** A call on a collaborator: the event is emitted and the world moves on. *)
Definition call {W A} (ev : Event) (f : W → Result A * W) : M W A :=
  λ r, match f (world r) with
       | (x, w1) => (x, mkReconciler (tenantR r) w1, [ev])
       end.

(** [r.logger.Info]; the key/value pairs that follow the message are left
    out. *)
Definition logger_Info {W} (msg : string) : M W unit :=
  λ r, (Ok tt, r, [LogInfo msg]).

(** The three parts of what a method returns. *)
Definition result_of {W A} (x : Result A * InternalReconciler W * list Event) : Result A :=
  x.1.1.
Definition after {W A} (x : Result A * InternalReconciler W * list Event) : InternalReconciler W :=
  x.1.2.
Definition events {W A} (x : Result A * InternalReconciler W * list Event) : list Event :=
  x.2.

(** ** The methods of [InternalReconciler] *)

Section Reconciler.
Context {W : Type} `{!ThreeScaleClient W, !K8sClient W, !Package}.

(** *** The calls on [r.portaClient] and [r.k8sClient] *)

Definition portaClient_ShowTenant (id : Z) : M W Tenant.t :=
  call (ShowTenantCall id) (ShowTenant id).
Definition portaClient_CreateTenant (orgName username email password : string) : M W Tenant.t :=
  call (CreateTenantCall orgName username email password)
       (CreateTenant orgName username email password).
Definition portaClient_UpdateTenant (id : Z) (params : Params) : M W Tenant.t :=
  call (UpdateTenantCall id params) (UpdateTenant id params).
Definition portaClient_ListUsers (accountID : Z) (filterParams : Params) : M W UserList.t :=
  call (ListUsersCall accountID filterParams) (ListUsers accountID filterParams).
Definition portaClient_ReadUser (accountID userID : Z) : M W User.t :=
  call (ReadUserCall accountID userID) (ReadUser accountID userID).
Definition portaClient_UpdateUser (accountID userID : Z) (params : Params) : M W User.t :=
  call (UpdateUserCall accountID userID params) (UpdateUser accountID userID params).
Definition portaClient_ActivateUser (accountID userID : Z) : M W unit :=
  call (ActivateUserCall accountID userID) (ActivateUser accountID userID).
Definition portaClient_ListApplications (accountID : Z) : M W ApplicationList.t :=
  call (ListApplicationsCall accountID) (ListApplications accountID).
Definition k8sClient_Get (nn : NamespacedName.t) : M W Secret.t :=
  call (GetCall nn) (Get nn).
Definition k8sClient_Create (secret : Secret.t) : M W unit :=
  call (CreateCall secret) (Create secret).
Definition k8sClient_Status_Update (obj : TenantCR.t) : M W unit :=
  call (StatusUpdateCall obj) (StatusUpdate obj).

(** [tenantDef.Signup.Account] *)
Definition account_of (tenantDef : Tenant.t) : Account.t :=
  Signup.Account (Tenant.Signup tenantDef).

(** *** Tenant account *)

(** [nil, nil] is [None]: the tenant has to be created. *)
Definition fetchTenant : M W (option Tenant.t) :=
  tR ← read_tenantR;
  if decide (TenantStatus.TenantId (TenantCR.Status tR) = 0) then
    mret None
  else
    x ← attempt (portaClient_ShowTenant (TenantStatus.TenantId (TenantCR.Status tR)));
    match x with
    | Err err => if porta_IsNotFound err then mret None else fail err
    | Ok tenantDef => mret (Some tenantDef)
    end.

Definition getAdminPassword : M W string :=
  tR ← read_tenantR;
  tenantAdminSecret ← k8sClient_Get
    (NamespacedName.mk
       (SecretReference.Name (TenantSpec.PasswordCredentialsRef (TenantCR.Spec tR)))
       (TenantCR.Namespace tR));
  match Secret.Data tenantAdminSecret !! TenantAdminPasswordSecretField with
  | None =>
      fail (Errorf ("Not found admin password secret (ns: " +:+ TenantCR.Namespace tR
                    +:+ ", name: "
                    +:+ SecretReference.Name (TenantSpec.PasswordCredentialsRef (TenantCR.Spec tR))
                    +:+ ") attribute: " +:+ TenantAdminPasswordSecretField))
  | Some passwordByteArray => mret (string_of_list_byte passwordByteArray)
  end.

Definition createTenant : M W Tenant.t :=
  password ← getAdminPassword;
  tR ← read_tenantR;
  logger_Info "Creating a new tenant";;
  portaClient_CreateTenant
    (TenantSpec.OrganizationName (TenantCR.Spec tR))
    (TenantSpec.Username (TenantCR.Spec tR))
    (TenantSpec.Email (TenantCR.Spec tR))
    password.

(** The closure [triggerSync] of [syncTenant]. *)
Definition syncTenant_triggerSync (tR : TenantCR.t) (tenantDef : Tenant.t) : bool :=
  if decide (TenantSpec.OrganizationName (TenantCR.Spec tR) ≠ Account.OrgName (account_of tenantDef))
  then true
  else if decide (TenantSpec.Email (TenantCR.Spec tR) ≠ Account.SupportEmail (account_of tenantDef))
  then true
  else false.

(** [syncTenant] writes the two fields into the tenant its argument points
    to; the tenant as it is afterwards is returned. *)
Definition syncTenant (tenantDef : Tenant.t) : M W Tenant.t :=
  tR ← read_tenantR;
  if syncTenant_triggerSync tR tenantDef then
    logger_Info "Syncing tenant";;
    let tenantDef' :=
      Tenant.mk (Signup.mk (Account.mk
        (Account.ID (account_of tenantDef))
        (TenantSpec.OrganizationName (TenantCR.Spec tR))
        (TenantSpec.Email (TenantCR.Spec tR))
        (Account.AdminDomain (account_of tenantDef)))) in
    let params : Params :=
      <["support_email" := TenantSpec.Email (TenantCR.Spec tR)]>
        (<["org_name" := TenantSpec.OrganizationName (TenantCR.Spec tR)]> ∅) in
    portaClient_UpdateTenant (TenantStatus.TenantId (TenantCR.Status tR)) params;;
    mret tenantDef'
  else
    mret tenantDef.

Definition reconcileTenant : M W Tenant.t :=
  tenantDef ← fetchTenant;
  match tenantDef with
  | None => createTenant
  | Some tenantDef =>
      logger_Info "Tenant already exists";;
      syncTenant tenantDef
  end.

(** *** Admin user *)

(** The loop of [findAdminUser] over [userList.Users]. *)
Fixpoint findAdminUser_scan (tR : TenantCR.t) (users : list UserElem.t) : option User.t :=
  match users with
  | [] => None
  | user :: rest =>
      if decide (User.Email (UserElem.User user) = TenantSpec.Email (TenantCR.Spec tR)
                 ∧ User.UserName (UserElem.User user) = TenantSpec.Username (TenantCR.Spec tR))
      then Some (UserElem.User user)
      else findAdminUser_scan tR rest
  end.

Definition findAdminUser (tenantDef : Tenant.t) : M W User.t :=
  tR ← read_tenantR;
  let filterParams : Params := <["role" := "admin"]> ∅ in
  userList ← portaClient_ListUsers (Account.ID (account_of tenantDef)) filterParams;
  match findAdminUser_scan tR (UserList.Users userList) with
  | Some user => mret user
  | None =>
      fail (Errorf ("Admin user not found and should be available"
                    +:+ "TenantId: " +:+ fmt_d (Account.ID (account_of tenantDef))
                    +:+ ". Admin Username: " +:+ TenantSpec.Username (TenantCR.Spec tR)
                    +:+ ", Admin email: " +:+ TenantSpec.Email (TenantCR.Spec tR)))
  end.

Definition fetchAdminUser (tenantDef : Tenant.t) : M W User.t :=
  tR ← read_tenantR;
  if decide (TenantStatus.AdminId (TenantCR.Status tR) = 0) then
    findAdminUser tenantDef
  else
    portaClient_ReadUser (Account.ID (account_of tenantDef))
                         (TenantStatus.AdminId (TenantCR.Status tR)).

Definition activateAdminUser (tenantDef : Tenant.t) (adminUser : User.t) : M W unit :=
  logger_Info "Activating pending admin user";;
  portaClient_ActivateUser (Account.ID (account_of tenantDef)) (User.ID adminUser).

(** The closure [triggerSync] of [syncAdminUser]. *)
Definition syncAdminUser_triggerSync (tR : TenantCR.t) (adminUser : User.t) : bool :=
  if decide (TenantSpec.Username (TenantCR.Spec tR) ≠ User.UserName adminUser)
  then true
  else if decide (TenantSpec.Email (TenantCR.Spec tR) ≠ User.Email adminUser)
  then true
  else false.

(** [syncAdminUser] writes the two fields into the user its argument points
    to; the user as it is afterwards is returned. *)
Definition syncAdminUser (tenantDef : Tenant.t) (adminUser : User.t) : M W User.t :=
  tR ← read_tenantR;
  (if decide (User.State adminUser = "pending") then
     activateAdminUser tenantDef adminUser
   else
     logger_Info "Admin user already active");;
  if syncAdminUser_triggerSync tR adminUser then
    logger_Info "Syncing adminUser";;
    let adminUser' :=
      User.mk (User.ID adminUser) (User.State adminUser)
              (TenantSpec.Username (TenantCR.Spec tR))
              (TenantSpec.Email (TenantCR.Spec tR))
              (User.Role adminUser) in
    let params : Params :=
      <["username" := TenantSpec.Username (TenantCR.Spec tR)]>
        (<["email" := TenantSpec.Email (TenantCR.Spec tR)]> ∅) in
    portaClient_UpdateUser (Account.ID (account_of tenantDef)) (User.ID adminUser) params;;
    mret adminUser'
  else
    mret adminUser.

Definition reconcileAdminUser (tenantDef : Tenant.t) : M W User.t :=
  adminUserDef ← fetchAdminUser tenantDef;
  syncAdminUser tenantDef adminUserDef.

(** *** Access token secret *)

(** [nil, nil] is [None]: the secret has to be created. *)
Definition findAccessTokenSecret (nn : NamespacedName.t) : M W (option Secret.t) :=
  x ← attempt (k8sClient_Get nn);
  match x with
  | Err err => if k8s_IsNotFound err then mret None else fail err
  | Ok adminAccessTokenSecret => mret (Some adminAccessTokenSecret)
  end.

Definition findTenantProviderKey (tenantDef : Tenant.t) : M W string :=
  appList ← portaClient_ListApplications (Account.ID (account_of tenantDef));
  if decide (List.length (ApplicationList.Applications appList) ≠ 1%nat) then
    fail (Errorf ("Unexpected application list. TenantId: "
                  +:+ fmt_d (Account.ID (account_of tenantDef))))
  else
    match ApplicationList.Applications appList !! 0%nat with
    | Some app => mret (Application.UserKey (ApplicationElem.Application app))
    | None => fail (Panic "index out of range")
    end.

Definition createTenantProviderKeySecret (tenantDef : Tenant.t) (nn : NamespacedName.t) : M W unit :=
  logger_Info "Creating admin access token secret";;
  tenantProviderKey ← findTenantProviderKey tenantDef;
  match URLFromDomain (Account.AdminDomain (account_of tenantDef)) with
  | Err err => fail err
  | Ok adminURL =>
      tR ← read_tenantR;
      let secret :=
        Secret.mk "v1" "Secret"
          (NamespacedName.Namespace nn) (NamespacedName.Name nn)
          (<["app" := "3scale-operator"]> ∅)
          []
          ∅
          (<[TenantProviderKeySecretField := tenantProviderKey]>
             (<[TenantAdminDomainKeySecretField := URL_String adminURL]> ∅))
          "Opaque" in
      k8sClient_Create (addOwnerRefToObject secret (asOwner tR))
  end.

Definition reconcileAccessTokenSecret (tenantDef : Tenant.t) : M W unit :=
  tR ← read_tenantR;
  let tenantProviderKeySecretNN :=
    NamespacedName.mk
      (SecretReference.Name (TenantSpec.TenantSecretRef (TenantCR.Spec tR)))
      (SecretReference.Namespace (TenantSpec.TenantSecretRef (TenantCR.Spec tR))) in
  tenantProviderKeySecret ← findAccessTokenSecret tenantProviderKeySecretNN;
  match tenantProviderKeySecret with
  | None => createTenantProviderKeySecret tenantDef tenantProviderKeySecretNN
  | Some _ => logger_Info "Admin user access token secret already exists"
  end.

(** *** Status *)

Definition getTenantStatus (tenantDef : Tenant.t) (adminUserDef : User.t) : TenantStatus.t :=
  TenantStatus.mk (Account.ID (account_of tenantDef)) (User.ID adminUserDef).

(** [reflect.DeepEqual] on two [TenantStatus] values, a struct of two
    [int64], is equality of both fields. *)
Definition updateTenantStatus (tenantStatus : TenantStatus.t) : M W unit :=
  tR ← read_tenantR;
  if decide (TenantCR.Status tR = tenantStatus) then
    mret tt
  else
    logger_Info "update tenant status";;
    assign_Status tenantStatus;;
    tR' ← read_tenantR;
    k8sClient_Status_Update tR'.

(** *** The run *)

Definition Run : M W unit :=
  tenantDef ← reconcileTenant;
  adminUserDef ← reconcileAdminUser tenantDef;
  reconcileAccessTokenSecret tenantDef;;
  let tenantStatus := getTenantStatus tenantDef adminUserDef in
  updateTenantStatus tenantStatus.

End Reconciler.

(** ** Names for what the methods build *)

(** The name [reconcileAccessTokenSecret] looks the secret up under: the
    name and namespace of the token secret reference of the record. *)
Definition tenantProviderKeySecretNN (tR : TenantCR.t) : NamespacedName.t :=
  NamespacedName.mk
    (SecretReference.Name (TenantSpec.TenantSecretRef (TenantCR.Spec tR)))
    (SecretReference.Namespace (TenantSpec.TenantSecretRef (TenantCR.Spec tR))).

(** The name [getAdminPassword] reads the password secret under: the name
    of the password reference, in the namespace of the record. *)
Definition tenantAdminSecretNN (tR : TenantCR.t) : NamespacedName.t :=
  NamespacedName.mk
    (SecretReference.Name (TenantSpec.PasswordCredentialsRef (TenantCR.Spec tR)))
    (TenantCR.Namespace tR).

(** The filter [findAdminUser] lists the users with. *)
Definition adminFilterParams : Params := <["role" := "admin"]> ∅.

(** The test of the loop of [findAdminUser] on one user. *)
Definition is_desired_admin (tR : TenantCR.t) (user : User.t) : Prop :=
  User.Email user = TenantSpec.Email (TenantCR.Spec tR)
  ∧ User.UserName user = TenantSpec.Username (TenantCR.Spec tR).

(** The parameters of the account update call. *)
Definition tenantSyncParams (tR : TenantCR.t) : Params :=
  <["support_email" := TenantSpec.Email (TenantCR.Spec tR)]>
    (<["org_name" := TenantSpec.OrganizationName (TenantCR.Spec tR)]> ∅).

(** The record with another namespace in its password reference. *)
Definition with_password_namespace (ns : string) (tR : TenantCR.t) : TenantCR.t :=
  TenantCR.mk (TenantCR.Namespace tR) (TenantCR.Name tR)
    (TenantSpec.mk
       (TenantSpec.Username (TenantCR.Spec tR))
       (TenantSpec.Email (TenantCR.Spec tR))
       (TenantSpec.OrganizationName (TenantCR.Spec tR))
       (SecretReference.mk
          (SecretReference.Name (TenantSpec.PasswordCredentialsRef (TenantCR.Spec tR)))
          ns)
       (TenantSpec.TenantSecretRef (TenantCR.Spec tR)))
    (TenantCR.Status tR).

(** ** Two worlds to run the reconciler in *)

(** *** Canned answers

    A world that answers every call from a fixed table and never changes, as
    a test double of the two clients does. *)
Record Canned := mkCanned {
  canned_ShowTenant : Z → Result Tenant.t;
  canned_CreateTenant : string → string → string → string → Result Tenant.t;
  canned_UpdateTenant : Z → Params → Result Tenant.t;
  canned_ListUsers : Z → Params → Result UserList.t;
  canned_ReadUser : Z → Z → Result User.t;
  canned_UpdateUser : Z → Z → Params → Result User.t;
  canned_ActivateUser : Z → Z → Result unit;
  canned_ListApplications : Z → Result ApplicationList.t;
  canned_Get : NamespacedName.t → Result Secret.t;
  canned_Create : Secret.t → Result unit;
  canned_StatusUpdate : TenantCR.t → Result unit
}.

#[global] Instance Canned_ThreeScaleClient : ThreeScaleClient Canned := {
  ShowTenant id w := (canned_ShowTenant w id, w);
  CreateTenant o u e p w := (canned_CreateTenant w o u e p, w);
  UpdateTenant id ps w := (canned_UpdateTenant w id ps, w);
  ListUsers id ps w := (canned_ListUsers w id ps, w);
  ReadUser a u w := (canned_ReadUser w a u, w);
  UpdateUser a u ps w := (canned_UpdateUser w a u ps, w);
  ActivateUser a u w := (canned_ActivateUser w a u, w);
  ListApplications a w := (canned_ListApplications w a, w)
}.

#[global] Instance Canned_K8sClient : K8sClient Canned := {
  Get nn w := (canned_Get w nn, w);
  Create s w := (canned_Create w s, w);
  StatusUpdate t w := (canned_StatusUpdate w t, w)
}.

(** Modelled from the spec: the constants and helpers of the package that
    are not in this file.  The admin URL is the bare domain with the scheme
    in front, and an empty domain is an error; the owner reference points
    back to the tenant resource. *)
#[global] Instance ref_Package : Package := {
  TenantAdminPasswordSecretField := "admin_password";
  TenantProviderKeySecretField := "token";
  TenantAdminDomainKeySecretField := "adminURL";
  URL := string;
  URLFromDomain domain :=
    if decide (domain = "") then Err (Errorf "empty admin domain")
    else Ok ("https://" +:+ domain);
  URL_String u := u;
  asOwner tR := OwnerReference.mk "Tenant" (TenantCR.Name tR) true
}.

(** *** A reference remote

    The remote control plane and the cluster as stores that change only
    through the calls made on them.  Accounts and users are kept under their
    ids, which are positive; a read answers with what is stored and changes
    nothing; a write is seen by the reads that follow it. *)
Record Remote := mkRemote {
  accounts : gmap positive Account.t;
  users : gmap (positive * positive) User.t;
  applications : gmap positive (list Application.t);
  secrets : gmap (string * string) Secret.t;
  tenants : gmap (string * string) TenantCR.t
}.

Definition as_id (id : Z) : option positive :=
  match id with Zpos p => Some p | _ => None end.

Definition porta_not_found : error := PortaError true "404 Not Found".
Definition k8s_not_found : error := K8sError true "not found".

Definition show_account (p : positive) (a : Account.t) : Tenant.t :=
  Tenant.mk (Signup.mk
    (Account.mk (Zpos p) (Account.OrgName a) (Account.SupportEmail a) (Account.AdminDomain a))).

Definition show_user (q : positive) (u : User.t) : User.t :=
  User.mk (Zpos q) (User.State u) (User.UserName u) (User.Email u) (User.Role u).

Definition remote_account (w : Remote) (id : Z) : option (positive * Account.t) :=
  p ← as_id id; a ← accounts w !! p; Some (p, a).

Definition remote_user (w : Remote) (accountID userID : Z) : option (positive * positive * User.t) :=
  p ← as_id accountID; q ← as_id userID; u ← users w !! (p, q); Some (p, q, u).

Definition remote_ShowTenant (id : Z) (w : Remote) : Result Tenant.t * Remote :=
  match remote_account w id with
  | Some (p, a) => (Ok (show_account p a), w)
  | None => (Err porta_not_found, w)
  end.

Definition remote_CreateTenant (orgName username email password : string) (w : Remote)
  : Result Tenant.t * Remote :=
  let p := fresh (dom (accounts w)) in
  let a := Account.mk (Zpos p) orgName email (orgName +:+ "-admin.example.com") in
  (Ok (show_account p a),
   mkRemote (<[p := a]> (accounts w))
            (<[(p, 1%positive) := User.mk 1 "pending" username email "admin"]> (users w))
            (<[p := [Application.mk ("provider-key-of-" +:+ orgName)]]> (applications w))
            (secrets w) (tenants w)).

Definition remote_UpdateTenant (id : Z) (params : Params) (w : Remote)
  : Result Tenant.t * Remote :=
  match remote_account w id with
  | Some (p, a) =>
      let a' := Account.mk (Account.ID a)
                  (default (Account.OrgName a) (params !! "org_name"))
                  (default (Account.SupportEmail a) (params !! "support_email"))
                  (Account.AdminDomain a) in
      (Ok (show_account p a'),
       mkRemote (<[p := a']> (accounts w)) (users w) (applications w) (secrets w) (tenants w))
  | None => (Err porta_not_found, w)
  end.

Definition passes_filter (filterParams : Params) (u : User.t) : bool :=
  match filterParams !! "role" with
  | Some role => bool_decide (User.Role u = role)
  | None => true
  end.

(** The users of account [p] that pass the filter, in the order of the
    store. *)
Definition remote_users_of (p : positive) (filterParams : Params) (w : Remote) : list UserElem.t :=
  omap (λ kv : positive * positive * User.t,
          if bool_decide (kv.1.1 = p) && passes_filter filterParams kv.2
          then Some (UserElem.mk (show_user kv.1.2 kv.2))
          else None)
       (map_to_list (users w)).

Definition remote_ListUsers (accountID : Z) (filterParams : Params) (w : Remote)
  : Result UserList.t * Remote :=
  match remote_account w accountID with
  | Some (p, _) => (Ok (UserList.mk (remote_users_of p filterParams w)), w)
  | None => (Err porta_not_found, w)
  end.

Definition remote_ReadUser (accountID userID : Z) (w : Remote) : Result User.t * Remote :=
  match remote_user w accountID userID with
  | Some (p, q, u) => (Ok (show_user q u), w)
  | None => (Err porta_not_found, w)
  end.

Definition remote_UpdateUser (accountID userID : Z) (params : Params) (w : Remote)
  : Result User.t * Remote :=
  match remote_user w accountID userID with
  | Some (p, q, u) =>
      let u' := User.mk (User.ID u) (User.State u)
                  (default (User.UserName u) (params !! "username"))
                  (default (User.Email u) (params !! "email"))
                  (User.Role u) in
      (Ok (show_user q u'),
       mkRemote (accounts w) (<[(p, q) := u']> (users w)) (applications w) (secrets w) (tenants w))
  | None => (Err porta_not_found, w)
  end.

Definition remote_ActivateUser (accountID userID : Z) (w : Remote) : Result unit * Remote :=
  match remote_user w accountID userID with
  | Some (p, q, u) =>
      let u' := User.mk (User.ID u) "active" (User.UserName u) (User.Email u) (User.Role u) in
      (Ok tt,
       mkRemote (accounts w) (<[(p, q) := u']> (users w)) (applications w) (secrets w) (tenants w))
  | None => (Err porta_not_found, w)
  end.

Definition remote_ListApplications (accountID : Z) (w : Remote)
  : Result ApplicationList.t * Remote :=
  match remote_account w accountID with
  | Some (p, _) =>
      (Ok (ApplicationList.mk (ApplicationElem.mk <$> default [] (applications w !! p))), w)
  | None => (Err porta_not_found, w)
  end.

Definition remote_Get (nn : NamespacedName.t) (w : Remote) : Result Secret.t * Remote :=
  match secrets w !! (NamespacedName.Namespace nn, NamespacedName.Name nn) with
  | Some s => (Ok s, w)
  | None => (Err k8s_not_found, w)
  end.

(** The cluster keeps the string data of a secret as data. *)
Definition stored_secret (s : Secret.t) : Secret.t :=
  Secret.mk (Secret.APIVersion s) (Secret.Kind s) (Secret.Namespace s) (Secret.Name s)
    (Secret.Labels s) (Secret.OwnerReferences s)
    ((list_byte_of_string <$> Secret.StringData s) ∪ Secret.Data s) ∅ (Secret.Type_ s).

Definition remote_Create (s : Secret.t) (w : Remote) : Result unit * Remote :=
  match secrets w !! (Secret.Namespace s, Secret.Name s) with
  | Some _ => (Err (K8sError false "already exists"), w)
  | None =>
      (Ok tt,
       mkRemote (accounts w) (users w) (applications w)
                (<[(Secret.Namespace s, Secret.Name s) := stored_secret s]> (secrets w))
                (tenants w))
  end.

(** The status subresource: only the status of the stored resource changes. *)
Definition remote_StatusUpdate (tR : TenantCR.t) (w : Remote) : Result unit * Remote :=
  match tenants w !! (TenantCR.Namespace tR, TenantCR.Name tR) with
  | Some stored =>
      (Ok tt,
       mkRemote (accounts w) (users w) (applications w) (secrets w)
                (<[(TenantCR.Namespace tR, TenantCR.Name tR) :=
                     TenantCR.with_Status (TenantCR.Status tR) stored]> (tenants w)))
  | None => (Err k8s_not_found, w)
  end.

#[global] Instance Remote_ThreeScaleClient : ThreeScaleClient Remote := {
  ShowTenant := remote_ShowTenant;
  CreateTenant := remote_CreateTenant;
  UpdateTenant := remote_UpdateTenant;
  ListUsers := remote_ListUsers;
  ReadUser := remote_ReadUser;
  UpdateUser := remote_UpdateUser;
  ActivateUser := remote_ActivateUser;
  ListApplications := remote_ListApplications
}.

#[global] Instance Remote_K8sClient : K8sClient Remote := {
  Get := remote_Get;
  Create := remote_Create;
  StatusUpdate := remote_StatusUpdate
}.

(** The reference remote is in sync with a reconciler when the status of the
    record names an account and a user of the remote that carry the values
    of the spec, the user is not pending, and the token secret is there. *)
Definition Synced (r : InternalReconciler Remote) : Prop :=
  ∃ (p q : positive) (a : Account.t) (u : User.t),
    TenantCR.Status (tenantR r) = TenantStatus.mk (Zpos p) (Zpos q)
    ∧ accounts (world r) !! p = Some a
    ∧ Account.OrgName a = TenantSpec.OrganizationName (TenantCR.Spec (tenantR r))
    ∧ Account.SupportEmail a = TenantSpec.Email (TenantCR.Spec (tenantR r))
    ∧ users (world r) !! (p, q) = Some u
    ∧ User.State u ≠ "pending"
    ∧ User.UserName u = TenantSpec.Username (TenantCR.Spec (tenantR r))
    ∧ User.Email u = TenantSpec.Email (TenantCR.Spec (tenantR r))
    ∧ is_Some (secrets (world r)
                 !! (NamespacedName.Namespace (tenantProviderKeySecretNN (tenantR r)),
                     NamespacedName.Name (tenantProviderKeySecretNN (tenantR r)))).

(** The events of a run that finds everything in sync: three reads, each
    followed by a log line. *)
Definition in_sync_events (tR : TenantCR.t) : list Event :=
  [ShowTenantCall (TenantStatus.TenantId (TenantCR.Status tR));
   LogInfo "Tenant already exists";
   ReadUserCall (TenantStatus.TenantId (TenantCR.Status tR))
                (TenantStatus.AdminId (TenantCR.Status tR));
   LogInfo "Admin user already active";
   GetCall (tenantProviderKeySecretNN tR);
   LogInfo "Admin user access token secret already exists"].

(** ** Concrete runs

    A tenant resource in namespace [tenants] whose password secret is there
    and whose token secret is to be written into namespace [operators]. *)
Module Scenario.

Definition spec : TenantSpec.t :=
  TenantSpec.mk "admin" "admin@example.com" "Example"
    (SecretReference.mk "admin-password" "elsewhere")
    (SecretReference.mk "tenant-token" "operators").

Definition password_secret : Secret.t :=
  Secret.mk "v1" "Secret" "tenants" "admin-password" ∅ []
    (<["admin_password" := list_byte_of_string "s3cret"]> ∅) ∅ "Opaque".

(** Nothing is provisioned yet: the status is zeroed and the remote is
    empty. *)
Definition new_tenant : TenantCR.t :=
  TenantCR.mk "tenants" "example" spec (TenantStatus.mk 0 0).

Definition new_cluster : Remote :=
  mkRemote ∅ ∅ ∅
    (<[("tenants", "admin-password") := password_secret]> ∅)
    (<[("tenants", "example") := new_tenant]> ∅).

Definition first_run : InternalReconciler Remote :=
  mkReconciler new_tenant new_cluster.

(** What the first run gets back when it creates the account and lists its
    admins. *)
Definition created_tenant : Tenant.t :=
  Tenant.mk (Signup.mk
    (Account.mk 1 "Example" "admin@example.com" "Example-admin.example.com")).

Definition created_admin : User.t :=
  User.mk 1 "pending" "admin" "admin@example.com" "admin".

(** The same, but the tenant resource is gone from the cluster by the time
    its status is written. *)
Definition deleted_meanwhile : InternalReconciler Remote :=
  mkReconciler new_tenant
    (mkRemote ∅ ∅ ∅ (<[("tenants", "admin-password") := password_secret]> ∅) ∅).

(** Everything is provisioned and in sync: account 1 with its admin 1, the
    token secret, and the ids in the status. *)
Definition account1 : Account.t :=
  Account.mk 1 "Example" "admin@example.com" "example-admin.example.com".

Definition admin1 : User.t :=
  User.mk 1 "active" "admin" "admin@example.com" "admin".

Definition token_secret : Secret.t :=
  Secret.mk "v1" "Secret" "operators" "tenant-token"
    (<["app" := "3scale-operator"]> ∅) []
    (<["token" := list_byte_of_string "provider-key"]> ∅) ∅ "Opaque".

Definition synced_tenant : TenantCR.t :=
  TenantCR.mk "tenants" "example" spec (TenantStatus.mk 1 1).

Definition synced_cluster : Remote :=
  mkRemote (<[1%positive := account1]> ∅)
           (<[(1%positive, 1%positive) := admin1]> ∅)
           (<[1%positive := [Application.mk "provider-key"]]> ∅)
           (<[("operators", "tenant-token") := token_secret]>
              (<[("tenants", "admin-password") := password_secret]> ∅))
           (<[("tenants", "example") := synced_tenant]> ∅).

Definition shown_tenant : Tenant.t := Tenant.mk (Signup.mk account1).

(** The status holds an admin id under which the remote has no user, while
    the account has the admin the spec describes. *)
Definition stale_admin_id : InternalReconciler Remote :=
  mkReconciler (TenantCR.with_Status (TenantStatus.mk 1 7) synced_tenant) synced_cluster.

(** The organization name of the account is an old one. *)
Definition old_account : Account.t :=
  Account.mk 1 "Old" "admin@example.com" "example-admin.example.com".

Definition drifted : InternalReconciler Remote :=
  mkReconciler synced_tenant
    (mkRemote (<[1%positive := old_account]> ∅)
              (users synced_cluster) (applications synced_cluster)
              (secrets synced_cluster) (tenants synced_cluster)).

(** The token secret is missing and the account has two applications. *)
Definition two_applications : InternalReconciler Remote :=
  mkReconciler synced_tenant
    (mkRemote (accounts synced_cluster) (users synced_cluster)
              (<[1%positive := [Application.mk "provider-key"; Application.mk "other-key"]]> ∅)
              (<[("tenants", "admin-password") := password_secret]> ∅)
              (tenants synced_cluster)).

(** Nothing is provisioned and the password secret is missing as well. *)
Definition no_password_secret : InternalReconciler Remote :=
  mkReconciler new_tenant
    (mkRemote ∅ ∅ ∅ ∅ (<[("tenants", "example") := new_tenant]> ∅)).

(** Every call on the remote fails with an error that is not a not-found
    error; the cluster has no secret. *)
Definition unavailable : error := PortaError false "503 Service Unavailable".

Definition remote_down : InternalReconciler Canned :=
  mkReconciler synced_tenant
    (mkCanned (λ _, Err unavailable) (λ _ _ _ _, Err unavailable)
              (λ _ _, Err unavailable) (λ _ _, Err unavailable)
              (λ _ _, Err unavailable) (λ _ _ _, Err unavailable)
              (λ _ _, Err unavailable) (λ _, Err unavailable)
              (λ _, Err k8s_not_found) (λ _, Ok tt) (λ _, Ok tt)).

End Scenario.

(** ** Names for what the further properties speak of *)

(** The parameters of the user update call. *)
Definition adminSyncParams (tR : TenantCR.t) : Params :=
  <["username" := TenantSpec.Username (TenantCR.Spec tR)]>
    (<["email" := TenantSpec.Email (TenantCR.Spec tR)]> ∅).

(** How many events of a kind a run emitted. *)
Definition count_events (kind : Event → bool) (t : list Event) : nat :=
  List.length (List.filter kind t).

Definition is_ShowTenantCall (ev : Event) : bool :=
  match ev with ShowTenantCall _ => true | _ => false end.
Definition is_ListApplicationsCall (ev : Event) : bool :=
  match ev with ListApplicationsCall _ => true | _ => false end.
Definition is_ReadUserCall (ev : Event) : bool :=
  match ev with ReadUserCall _ _ => true | _ => false end.
Definition is_GetCall (ev : Event) : bool :=
  match ev with GetCall _ => true | _ => false end.

(** The kinds of calls on the remote, and those that write to the cluster. *)
Definition single_call_kinds : list (Event → bool) :=
  [is_ShowTenantCall; is_CreateTenantCall; is_UpdateTenantCall;
   is_ListUsersCall; is_ReadUserCall; is_ActivateUserCall; is_UpdateUserCall;
   is_ListApplicationsCall; is_CreateCall; is_StatusUpdateCall].

(** What a list of events of one stage may hold of each kind of call. *)
Definition stage_counts (t : list Event) (bounds : list nat) : Prop :=
  Forall2 (λ kind bound, (count_events kind t ≤ bound)%nat) single_call_kinds bounds
  ∧ (count_events is_GetCall t ≤ 1)%nat.

(** The account a call on users or applications is made on. *)
Definition event_account (ev : Event) : option Z :=
  match ev with
  | ListUsersCall accountID _ | ReadUserCall accountID _
  | UpdateUserCall accountID _ _ | ActivateUserCall accountID _
  | ListApplicationsCall accountID => Some accountID
  | _ => None
  end.

(** The id a lookup by id asks for. *)
Definition event_lookup_id (ev : Event) : option Z :=
  match ev with
  | ShowTenantCall id => Some id
  | ReadUserCall _ userID => Some userID
  | _ => None
  end.

(** The secret [createTenantProviderKeySecret] builds from the key of the
    application and the admin URL. *)
Definition tenantProviderKeySecret `{!Package}
    (tR : TenantCR.t) (tenantProviderKey adminURL : string) : Secret.t :=
  addOwnerRefToObject
    (Secret.mk "v1" "Secret"
       (NamespacedName.Namespace (tenantProviderKeySecretNN tR))
       (NamespacedName.Name (tenantProviderKeySecretNN tR))
       (<["app" := "3scale-operator"]> ∅) [] ∅
       (<[TenantProviderKeySecretField := tenantProviderKey]>
          (<[TenantAdminDomainKeySecretField := adminURL]> ∅))
       "Opaque")
    (asOwner tR).

(** The tenant [syncTenant] leaves behind the pointer it was given. *)
Definition synced_tenantDef (tR : TenantCR.t) (tenantDef : Tenant.t) : Tenant.t :=
  Tenant.mk (Signup.mk (Account.mk
    (Account.ID (account_of tenantDef))
    (TenantSpec.OrganizationName (TenantCR.Spec tR))
    (TenantSpec.Email (TenantCR.Spec tR))
    (Account.AdminDomain (account_of tenantDef)))).

(** ** More concrete runs *)
Module Cases.

(** Everything is provisioned and in sync. *)
Definition synced : InternalReconciler Remote :=
  mkReconciler Scenario.synced_tenant Scenario.synced_cluster.

(** The token secret is missing; the account has its one application. *)
Definition no_token_secret : InternalReconciler Remote :=
  mkReconciler Scenario.synced_tenant
    (mkRemote (accounts Scenario.synced_cluster) (users Scenario.synced_cluster)
              (applications Scenario.synced_cluster)
              (<[("tenants", "admin-password") := Scenario.password_secret]> ∅)
              (tenants Scenario.synced_cluster)).

(** The token secret is missing and the account has no admin domain. *)
Definition no_domain_account : Account.t :=
  Account.mk 1 "Example" "admin@example.com" "".

Definition no_admin_domain : InternalReconciler Remote :=
  mkReconciler Scenario.synced_tenant
    (mkRemote (<[1%positive := no_domain_account]> ∅) (users Scenario.synced_cluster)
              (applications Scenario.synced_cluster)
              (<[("tenants", "admin-password") := Scenario.password_secret]> ∅)
              (tenants Scenario.synced_cluster)).

(** Nothing is provisioned, and the password secret has no password field. *)
Definition empty_password_secret : Secret.t :=
  Secret.mk "v1" "Secret" "tenants" "admin-password" ∅ [] ∅ ∅ "Opaque".

Definition no_password_field : InternalReconciler Remote :=
  mkReconciler Scenario.new_tenant
    (mkRemote ∅ ∅ ∅
       (<[("tenants", "admin-password") := empty_password_secret]> ∅)
       (<[("tenants", "example") := Scenario.new_tenant]> ∅)).

(** The admin has an old username. *)
Definition old_admin : User.t :=
  User.mk 1 "active" "root" "admin@example.com" "admin".

Definition drifted_admin : InternalReconciler Remote :=
  mkReconciler Scenario.synced_tenant
    (mkRemote (accounts Scenario.synced_cluster)
              (<[(1%positive, 1%positive) := old_admin]> ∅)
              (applications Scenario.synced_cluster)
              (secrets Scenario.synced_cluster) (tenants Scenario.synced_cluster)).

(** A remote that answers the reads in sync, with a pending admin that
    cannot be activated, and a cluster that refuses to read secrets. *)
Definition forbidden : error := K8sError false "forbidden".

Definition pending_admin : User.t :=
  User.mk 1 "pending" "admin" "admin@example.com" "admin".

Definition answers (admin : User.t) (users : Result UserList.t) : Canned :=
  mkCanned (λ _, Ok Scenario.shown_tenant) (λ _ _ _ _, Err Scenario.unavailable)
           (λ _ _, Err Scenario.unavailable) (λ _ _, users)
           (λ _ _, Ok admin) (λ _ _ _, Err Scenario.unavailable)
           (λ _ _, Err Scenario.unavailable) (λ _, Err Scenario.unavailable)
           (λ _, Err forbidden) (λ _, Ok tt) (λ _, Ok tt).

Definition activation_refused : InternalReconciler Canned :=
  mkReconciler Scenario.synced_tenant (answers pending_admin (Err Scenario.unavailable)).

Definition secrets_forbidden : InternalReconciler Canned :=
  mkReconciler Scenario.synced_tenant (answers Scenario.admin1 (Err Scenario.unavailable)).

(** The status has the account id only, and the users cannot be listed. *)
Definition listing_refused : InternalReconciler Canned :=
  mkReconciler (TenantCR.with_Status (TenantStatus.mk 1 0) Scenario.synced_tenant)
               (answers Scenario.admin1 (Err Scenario.unavailable)).

(** The account drifted, and the update call answers with another account. *)
Definition other_account : Tenant.t :=
  Tenant.mk (Signup.mk (Account.mk 99 "Other" "other@example.com" "other.example.com")).

Definition update_answers_other : InternalReconciler Canned :=
  mkReconciler Scenario.synced_tenant
    (mkCanned (λ _, Ok (Tenant.mk (Signup.mk Scenario.old_account)))
              (λ _ _ _ _, Err Scenario.unavailable)
              (λ _ _, Ok other_account) (λ _ _, Err Scenario.unavailable)
              (λ _ _, Ok Scenario.admin1) (λ _ _ _, Err Scenario.unavailable)
              (λ _ _, Err Scenario.unavailable) (λ _, Err Scenario.unavailable)
              (λ _, Ok Scenario.token_secret) (λ _, Ok tt) (λ _, Ok tt)).

End Cases.

(** * Properties *)

(** ** The monad *)

Section MonadFacts.
Context {W : Type}.

Lemma bind_Ok {A B} (m : M W A) (f : A → M W B) r a r1 t1 :
  m r = (Ok a, r1, t1) →
  (m ≫= f) r = (result_of (f a r1), after (f a r1), t1 ++ events (f a r1)).
Proof.
  intros Hm. unfold mbind, M_bind. rewrite Hm.
  by destruct (f a r1) as [[y r2] t2].
Qed.

Lemma bind_Err {A B} (m : M W A) (f : A → M W B) r e r1 t1 :
  m r = (Err e, r1, t1) → (m ≫= f) r = (Err e, r1, t1).
Proof. intros Hm. unfold mbind, M_bind. by rewrite Hm. Qed.

End MonadFacts.

(** Unfolds the methods down to the calls on the collaborators. *)
Ltac unfold_methods :=
  unfold Run, reconcileTenant, reconcileAdminUser, reconcileAccessTokenSecret,
    updateTenantStatus, getTenantStatus, createTenantProviderKeySecret,
    findTenantProviderKey, findAccessTokenSecret, syncAdminUser, activateAdminUser,
    fetchAdminUser, findAdminUser, syncTenant, createTenant, getAdminPassword,
    fetchTenant,
    portaClient_ShowTenant, portaClient_CreateTenant, portaClient_UpdateTenant,
    portaClient_ListUsers, portaClient_ReadUser, portaClient_UpdateUser,
    portaClient_ActivateUser, portaClient_ListApplications,
    k8sClient_Get, k8sClient_Create, k8sClient_Status_Update,
    mbind, M_bind, mret, M_ret, fail, attempt, read_tenantR, assign_Status,
    logger_Info, call, result_of, after, events in *.

(** Splits on the next thing a method's outcome depends on. *)
Ltac step_method :=
  match goal with
  | |- context [match ?x with _ => _ end] =>
      lazymatch x with
      | context [match _ with _ => _ end] => fail
      | _ => destruct x eqn:?
      end
  | |- context [if ?x then _ else _] =>
      lazymatch x with
      | context [match _ with _ => _ end] => fail
      | _ => destruct x eqn:?
      end
  end; simpl in *.

(** ** The stages of a run *)

Section Stages.
Context {W : Type} `{!ThreeScaleClient W, !K8sClient W, !Package}.
Implicit Types r : InternalReconciler W.

(** A run is its four stages in sequence, ended by the first error. *)
Lemma Run_stages r :
  Run r =
    match reconcileTenant r with
    | (Err e, r1, t1) => (Err e, r1, t1)
    | (Ok tenantDef, r1, t1) =>
        match reconcileAdminUser tenantDef r1 with
        | (Err e, r2, t2) => (Err e, r2, t1 ++ t2)
        | (Ok adminUserDef, r2, t2) =>
            match reconcileAccessTokenSecret tenantDef r2 with
            | (Err e, r3, t3) => (Err e, r3, t1 ++ t2 ++ t3)
            | (Ok _, r3, t3) =>
                match updateTenantStatus (getTenantStatus tenantDef adminUserDef) r3 with
                | (y, r4, t4) => (y, r4, t1 ++ t2 ++ t3 ++ t4)
                end
            end
        end
    end.
Proof.
  unfold Run, mbind, M_bind.
  destruct (reconcileTenant r) as [[[tenantDef|e] r1] t1]; [|done].
  destruct (reconcileAdminUser tenantDef r1) as [[[adminUserDef|e] r2] t2]; [|done].
  destruct (reconcileAccessTokenSecret tenantDef r2) as [[[[]|e] r3] t3]; [|done].
  by destruct (updateTenantStatus _ r3) as [[y r4] t4].
Qed.

Lemma reconcileTenant_events r :
  Forall (λ ev, tenant_stage_event ev = true) (events (reconcileTenant r)).
Proof.
  unfold_methods. unfold syncTenant_triggerSync.
  repeat step_method; repeat constructor.
Qed.

Lemma reconcileAdminUser_events tenantDef r :
  Forall (λ ev, admin_stage_event ev = true) (events (reconcileAdminUser tenantDef r)).
Proof.
  unfold_methods. unfold syncAdminUser_triggerSync.
  repeat step_method; repeat constructor.
Qed.

Lemma reconcileAccessTokenSecret_events tenantDef r :
  Forall (λ ev, secret_stage_event ev = true) (events (reconcileAccessTokenSecret tenantDef r)).
Proof.
  unfold_methods.
  repeat step_method; repeat constructor.
Qed.

Lemma updateTenantStatus_events st r :
  Forall (λ ev, status_stage_event ev = true) (events (updateTenantStatus st r)).
Proof.
  unfold_methods.
  repeat step_method; repeat constructor.
Qed.

End Stages.

Section StagesKeepTheRecord.
Context {W : Type} `{!ThreeScaleClient W, !K8sClient W, !Package}.
Implicit Types r : InternalReconciler W.

(** Only the status stage assigns to the tenant resource. *)
Lemma reconcileTenant_tenantR r : tenantR (after (reconcileTenant r)) = tenantR r.
Proof.
  unfold_methods. unfold syncTenant_triggerSync.
  repeat step_method; reflexivity.
Qed.

Lemma reconcileAdminUser_tenantR tenantDef r :
  tenantR (after (reconcileAdminUser tenantDef r)) = tenantR r.
Proof.
  unfold_methods. unfold syncAdminUser_triggerSync.
  repeat step_method; reflexivity.
Qed.

Lemma reconcileAccessTokenSecret_tenantR tenantDef r :
  tenantR (after (reconcileAccessTokenSecret tenantDef r)) = tenantR r.
Proof.
  unfold_methods.
  repeat step_method; reflexivity.
Qed.

(** The status stage, case by case. *)
Lemma updateTenantStatus_equal st r :
  TenantCR.Status (tenantR r) = st → updateTenantStatus st r = (Ok tt, r, []).
Proof.
  intros Heq. unfold_methods. by rewrite decide_True.
Qed.

Lemma updateTenantStatus_differs st r :
  TenantCR.Status (tenantR r) ≠ st →
  updateTenantStatus st r =
    ((StatusUpdate (TenantCR.with_Status st (tenantR r)) (world r)).1,
     mkReconciler (TenantCR.with_Status st (tenantR r))
                  (StatusUpdate (TenantCR.with_Status st (tenantR r)) (world r)).2,
     [LogInfo "update tenant status";
      StatusUpdateCall (TenantCR.with_Status st (tenantR r))]).
Proof.
  intros Hne. unfold_methods. rewrite decide_False by done. simpl.
  by destruct (StatusUpdate _ (world r)) as [[[]|e] w1].
Qed.

End StagesKeepTheRecord.

(** ** The scan of the user list *)

Lemma findAdminUser_scan_none tR (l : list UserElem.t) :
  Forall (λ y, ¬ is_desired_admin tR (UserElem.User y)) l →
  findAdminUser_scan tR l = None.
Proof.
  induction 1 as [|y l Hy _ IH]; simpl; [done|].
  by rewrite decide_False.
Qed.

Lemma findAdminUser_scan_first tR (pre post : list UserElem.t) x :
  Forall (λ y, ¬ is_desired_admin tR (UserElem.User y)) pre →
  is_desired_admin tR (UserElem.User x) →
  findAdminUser_scan tR (pre ++ x :: post) = Some (UserElem.User x).
Proof.
  intros Hpre Hx. induction Hpre as [|y pre Hy _ IH]; simpl.
  - by rewrite decide_True.
  - by rewrite decide_False.
Qed.

Lemma findAdminUser_scan_Some tR (l : list UserElem.t) user :
  findAdminUser_scan tR l = Some user →
  ∃ pre x post,
    l = pre ++ x :: post ∧ UserElem.User x = user
    ∧ is_desired_admin tR user
    ∧ Forall (λ y, ¬ is_desired_admin tR (UserElem.User y)) pre.
Proof.
  induction l as [|y l IH]; simpl; [done|].
  destruct (decide _) as [Hy|Hy].
  - intros [= <-]. by exists [], y, l.
  - intros (pre & x & post & -> & Hx & Hd & Hpre)%IH.
    exists (y :: pre), x, post.
    split; [done|]. split; [done|]. split; [done|]. by constructor.
Qed.

Lemma differs_not_desired tR (user : User.t) :
  User.Email user ≠ TenantSpec.Email (TenantCR.Spec tR)
  ∨ User.UserName user ≠ TenantSpec.Username (TenantCR.Spec tR) →
  ¬ is_desired_admin tR user.
Proof. intros [Hne|Hne] [He Hu]; by apply Hne. Qed.

(** ** The claims on the run *)

Lemma Forall_stage_events (P Q : Event → bool) (t : list Event) :
  (∀ ev, P ev = true → Q ev = false) →
  Forall (λ ev, P ev = true) t → Forall (λ ev, Q ev = false) t.
Proof. intros HPQ Ht. eapply Forall_impl; [exact Ht|exact HPQ]. Qed.

Section Claims.
Context {W : Type} `{!ThreeScaleClient W, !K8sClient W, !Package}.
Implicit Types r : InternalReconciler W.

(** When the first three stages have passed, the record is the one the run
    started with and no status update call has been made yet. *)
Lemma status_stage_of_run r tenantDef adminUserDef r1 t1 r2 t2 r3 t3 :
  reconcileTenant r = (Ok tenantDef, r1, t1) →
  reconcileAdminUser tenantDef r1 = (Ok adminUserDef, r2, t2) →
  reconcileAccessTokenSecret tenantDef r2 = (Ok tt, r3, t3) →
  tenantR r3 = tenantR r
  ∧ Forall (λ ev, is_StatusUpdateCall ev = false) (t1 ++ t2 ++ t3).
Proof.
  intros H1 H2 H3. split.
  - pose proof (reconcileTenant_tenantR r) as E1.
    pose proof (reconcileAdminUser_tenantR tenantDef r1) as E2.
    pose proof (reconcileAccessTokenSecret_tenantR tenantDef r2) as E3.
    rewrite H1 in E1. rewrite H2 in E2. rewrite H3 in E3.
    unfold after in *; simpl in *. congruence.
  - pose proof (reconcileTenant_events r) as E1.
    pose proof (reconcileAdminUser_events tenantDef r1) as E2.
    pose proof (reconcileAccessTokenSecret_events tenantDef r2) as E3.
    rewrite H1 in E1. rewrite H2 in E2. rewrite H3 in E3.
    unfold events in *; simpl in *.
    rewrite !Forall_app. repeat split.
    + revert E1. apply Forall_stage_events. by intros [].
    + revert E2. apply Forall_stage_events. by intros [].
    + revert E3. apply Forall_stage_events. by intros [].
Qed.

(** C7: in a run that reaches the status stage the candidate status is the
    pair of the account id and the admin id; when it equals the status of the
    record the run ends in success with no status update call at all;
    otherwise the record gets the candidate as its status, is persisted with
    one status update call, and the run returns what that call returns. *)
Theorem status_written_only_when_changed
    r tenantDef adminUserDef r1 t1 r2 t2 r3 t3 :
  reconcileTenant r = (Ok tenantDef, r1, t1) →
  reconcileAdminUser tenantDef r1 = (Ok adminUserDef, r2, t2) →
  reconcileAccessTokenSecret tenantDef r2 = (Ok tt, r3, t3) →
  let candidate := getTenantStatus tenantDef adminUserDef in
  let tR' := TenantCR.with_Status candidate (tenantR r) in
  candidate = TenantStatus.mk (Account.ID (account_of tenantDef)) (User.ID adminUserDef)
  ∧ (TenantCR.Status (tenantR r) = candidate →
       Run r = (Ok tt, r3, t1 ++ t2 ++ t3 ++ [])
       ∧ Forall (λ ev, is_StatusUpdateCall ev = false) (events (Run r)))
  ∧ (TenantCR.Status (tenantR r) ≠ candidate →
       Run r = ((StatusUpdate tR' (world r3)).1,
                mkReconciler tR' (StatusUpdate tR' (world r3)).2,
                t1 ++ t2 ++ t3 ++ [LogInfo "update tenant status"; StatusUpdateCall tR'])
       ∧ TenantCR.Status tR' = candidate
       ∧ Forall (λ ev, is_StatusUpdateCall ev = false) (t1 ++ t2 ++ t3)).
Proof.
  intros H1 H2 H3 candidate tR'.
  destruct (status_stage_of_run r tenantDef adminUserDef r1 t1 r2 t2 r3 t3 H1 H2 H3)
    as (HtR & Hquiet).
  split; [reflexivity|]. split.
  - intros Heq. rewrite Run_stages, H1, H2, H3.
    rewrite updateTenantStatus_equal by (by rewrite HtR).
    split; [done|]. unfold events; simpl. by rewrite !app_nil_r.
  - intros Hne. rewrite Run_stages, H1, H2, H3.
    rewrite updateTenantStatus_differs by (by rewrite HtR).
    rewrite HtR. done.
Qed.

(** C10: when the candidate differs from the status of the record and the
    status update call fails, the run returns the error of that call, the
    call was made with the record already holding the candidate, and the
    record of the reconciler holds the candidate after the failed run. *)
Theorem failed_status_update_keeps_new_status
    r tenantDef adminUserDef r1 t1 r2 t2 r3 t3 e w' :
  reconcileTenant r = (Ok tenantDef, r1, t1) →
  reconcileAdminUser tenantDef r1 = (Ok adminUserDef, r2, t2) →
  reconcileAccessTokenSecret tenantDef r2 = (Ok tt, r3, t3) →
  let candidate := getTenantStatus tenantDef adminUserDef in
  let tR' := TenantCR.with_Status candidate (tenantR r) in
  TenantCR.Status (tenantR r) ≠ candidate →
  StatusUpdate tR' (world r3) = (Err e, w') →
  result_of (Run r) = Err e
  ∧ TenantCR.Status (tenantR (after (Run r))) = candidate
  ∧ TenantCR.Status tR' = candidate
  ∧ events (Run r) =
      (t1 ++ t2 ++ t3 ++ [LogInfo "update tenant status"]) ++ [StatusUpdateCall tR']
  ∧ Forall (λ ev, is_StatusUpdateCall ev = false)
           (t1 ++ t2 ++ t3 ++ [LogInfo "update tenant status"]).
Proof.
  intros H1 H2 H3 candidate tR' Hne Hfail.
  destruct (status_stage_of_run r tenantDef adminUserDef r1 t1 r2 t2 r3 t3 H1 H2 H3)
    as (HtR & Hquiet).
  rewrite Run_stages, H1, H2, H3.
  rewrite updateTenantStatus_differs by (by rewrite HtR).
  rewrite HtR. fold candidate. fold tR'. rewrite Hfail.
  unfold result_of, after, events; simpl.
  repeat split; try done.
  - by rewrite <- !app_assoc.
  - rewrite !app_assoc. apply Forall_app. split; [by rewrite <- !app_assoc|].
    by repeat constructor.
Qed.

Lemma admin_stage_of_run r tenantDef adminUserDef r1 t1 r2 t2 :
  reconcileTenant r = (Ok tenantDef, r1, t1) →
  reconcileAdminUser tenantDef r1 = (Ok adminUserDef, r2, t2) →
  tenantR r2 = tenantR r
  ∧ Forall (λ ev, is_CreateCall ev = false) (t1 ++ t2).
Proof.
  intros H1 H2. split.
  - pose proof (reconcileTenant_tenantR r) as E1.
    pose proof (reconcileAdminUser_tenantR tenantDef r1) as E2.
    rewrite H1 in E1. rewrite H2 in E2.
    unfold after in *; simpl in *. congruence.
  - pose proof (reconcileTenant_events r) as E1.
    pose proof (reconcileAdminUser_events tenantDef r1) as E2.
    rewrite H1 in E1. rewrite H2 in E2.
    unfold events in *; simpl in *.
    rewrite !Forall_app. split.
    + revert E1. apply Forall_stage_events. by intros [].
    + revert E2. apply Forall_stage_events. by intros [].
Qed.

(** C6: in a run that reaches the creation of the secret (the secret is not
    found) and gets an application list whose length is not one, the run
    fails with the error that names the unexpected application list, and no
    secret create call is made: the run ends at the list call. *)
Theorem unexpected_application_list_creates_no_secret
    r tenantDef adminUserDef r1 t1 r2 t2 e w3 appList w4 :
  reconcileTenant r = (Ok tenantDef, r1, t1) →
  reconcileAdminUser tenantDef r1 = (Ok adminUserDef, r2, t2) →
  Get (tenantProviderKeySecretNN (tenantR r)) (world r2) = (Err e, w3) →
  k8s_IsNotFound e = true →
  ListApplications (Account.ID (account_of tenantDef)) w3 = (Ok appList, w4) →
  List.length (ApplicationList.Applications appList) ≠ 1%nat →
  Run r =
    (Err (Errorf ("Unexpected application list. TenantId: "
                  +:+ fmt_d (Account.ID (account_of tenantDef)))),
     mkReconciler (tenantR r) w4,
     t1 ++ t2 ++ [GetCall (tenantProviderKeySecretNN (tenantR r));
                  LogInfo "Creating admin access token secret";
                  ListApplicationsCall (Account.ID (account_of tenantDef))])
  ∧ Forall (λ ev, is_CreateCall ev = false) (events (Run r)).
Proof.
  intros H1 H2 Hget Hnf Hlist Hlen.
  destruct (admin_stage_of_run r tenantDef adminUserDef r1 t1 r2 t2 H1 H2)
    as (HtR & Hquiet).
  assert (Hstage : reconcileAccessTokenSecret tenantDef r2 =
    (Err (Errorf ("Unexpected application list. TenantId: "
                  +:+ fmt_d (Account.ID (account_of tenantDef)))),
     mkReconciler (tenantR r) w4,
     [GetCall (tenantProviderKeySecretNN (tenantR r));
      LogInfo "Creating admin access token secret";
      ListApplicationsCall (Account.ID (account_of tenantDef))])).
  { unfold_methods. unfold tenantProviderKeySecretNN in *.
    rewrite HtR. rewrite Hget. rewrite Hnf. simpl. rewrite Hlist.
    rewrite decide_True by done. reflexivity. }
  assert (HRun : Run r =
    (Err (Errorf ("Unexpected application list. TenantId: "
                  +:+ fmt_d (Account.ID (account_of tenantDef)))),
     mkReconciler (tenantR r) w4,
     t1 ++ t2 ++ [GetCall (tenantProviderKeySecretNN (tenantR r));
                  LogInfo "Creating admin access token secret";
                  ListApplicationsCall (Account.ID (account_of tenantDef))])).
  { by rewrite Run_stages, H1, H2, Hstage. }
  split; [exact HRun|].
  rewrite HRun. unfold events; simpl.
  rewrite app_assoc. apply Forall_app. split; [exact Hquiet|].
  by repeat constructor.
Qed.

(** C5: in a run whose record has no admin id in its status, the admin is
    looked for with one call that lists the users of the account with the
    role filter set to admin; the first user of the list whose email and
    username both equal those of the spec is the admin; when every listed
    user differs in at least one of the two, the run fails with an error
    that says the admin user was not found. *)
Theorem admin_found_by_scanning_the_admins
    r tenantDef r1 t1 userList w2 :
  reconcileTenant r = (Ok tenantDef, r1, t1) →
  TenantStatus.AdminId (TenantCR.Status (tenantR r)) = 0 →
  ListUsers (Account.ID (account_of tenantDef)) adminFilterParams (world r1)
    = (Ok userList, w2) →
  (∀ pre x post,
      UserList.Users userList = pre ++ x :: post →
      Forall (λ y, ¬ is_desired_admin (tenantR r) (UserElem.User y)) pre →
      is_desired_admin (tenantR r) (UserElem.User x) →
      fetchAdminUser tenantDef r1 =
        (Ok (UserElem.User x), mkReconciler (tenantR r) w2,
         [ListUsersCall (Account.ID (account_of tenantDef)) adminFilterParams]))
  ∧ (Forall (λ y,
        User.Email (UserElem.User y) ≠ TenantSpec.Email (TenantCR.Spec (tenantR r))
        ∨ User.UserName (UserElem.User y) ≠ TenantSpec.Username (TenantCR.Spec (tenantR r)))
       (UserList.Users userList) →
     Run r =
       (Err (Errorf ("Admin user not found and should be available"
                     +:+ "TenantId: " +:+ fmt_d (Account.ID (account_of tenantDef))
                     +:+ ". Admin Username: "
                     +:+ TenantSpec.Username (TenantCR.Spec (tenantR r))
                     +:+ ", Admin email: "
                     +:+ TenantSpec.Email (TenantCR.Spec (tenantR r)))),
        mkReconciler (tenantR r) w2,
        t1 ++ [ListUsersCall (Account.ID (account_of tenantDef)) adminFilterParams])).
Proof.
  intros H1 Hzero Hlist.
  assert (HtR : tenantR r1 = tenantR r).
  { pose proof (reconcileTenant_tenantR r) as E1. by rewrite H1 in E1. }
  split.
  - intros pre x post Hsplit Hpre Hx.
    unfold fetchAdminUser, findAdminUser, portaClient_ListUsers,
      mbind, M_bind, mret, M_ret, read_tenantR, call.
    simpl. rewrite HtR, decide_True by done.
    fold adminFilterParams. rewrite Hlist. simpl. rewrite HtR, Hsplit.
    by rewrite (findAdminUser_scan_first _ _ _ _ Hpre Hx).
  - intros Hall.
    rewrite Run_stages, H1.
    unfold reconcileAdminUser, fetchAdminUser, findAdminUser, portaClient_ListUsers,
      mbind, M_bind, mret, M_ret, read_tenantR, call, fail.
    simpl. rewrite HtR, decide_True by done.
    fold adminFilterParams. rewrite Hlist. simpl. rewrite HtR.
    rewrite findAdminUser_scan_none; [done|].
    eapply Forall_impl; [exact Hall|]. intros y. apply differs_not_desired.
Qed.

(** The events of a run whose tenant stage has passed: those of the tenant
    stage, those of the admin stage, and then only events of the secret and
    status stages. *)
Lemma Run_events_after_tenant r tenantDef r1 t1 :
  reconcileTenant r = (Ok tenantDef, r1, t1) →
  ∃ rest,
    events (Run r) = t1 ++ events (reconcileAdminUser tenantDef r1) ++ rest
    ∧ Forall (λ ev, secret_stage_event ev || status_stage_event ev = true) rest.
Proof.
  intros H1. rewrite Run_stages, H1.
  destruct (reconcileAdminUser tenantDef r1) as [[[adminUserDef|e] r2] t2] eqn:H2.
  2: { exists []. unfold events; simpl. by rewrite app_nil_r. }
  pose proof (reconcileAccessTokenSecret_events tenantDef r2) as E3.
  destruct (reconcileAccessTokenSecret tenantDef r2) as [[[[]|e] r3] t3] eqn:H3.
  2: { exists t3. split; [done|]. unfold events in E3; simpl in E3.
       eapply Forall_impl; [exact E3|]. intros ev Hev; simpl in Hev. by rewrite Hev. }
  pose proof (updateTenantStatus_events (getTenantStatus tenantDef adminUserDef) r3) as E4.
  destruct (updateTenantStatus _ r3) as [[y r4] t4].
  exists (t3 ++ t4). split; [done|].
  unfold events in E3, E4; simpl in E3, E4.
  apply Forall_app. split.
  - eapply Forall_impl; [exact E3|]. intros ev Hev; simpl in Hev. by rewrite Hev.
  - eapply Forall_impl; [exact E4|]. intros ev Hev; simpl in Hev.
    rewrite Hev. apply orb_true_r.
Qed.

Lemma fetchAdminUser_events tenantDef r :
  Forall (λ ev, is_ActivateUserCall ev = false ∧ is_UpdateUserCall ev = false)
         (events (fetchAdminUser tenantDef r)).
Proof.
  unfold_methods.
  repeat step_method; repeat constructor.
Qed.

Lemma syncAdminUser_pending tenantDef adminUser r :
  User.State adminUser = "pending" →
  ∃ post,
    events (syncAdminUser tenantDef adminUser r) =
      LogInfo "Activating pending admin user"
      :: ActivateUserCall (Account.ID (account_of tenantDef)) (User.ID adminUser)
      :: post
    ∧ Forall (λ ev, is_ActivateUserCall ev = false) post.
Proof.
  intros Hpending. unfold_methods. unfold syncAdminUser_triggerSync.
  rewrite decide_True by done. simpl.
  repeat step_method; eexists; (split; [reflexivity|]); repeat constructor.
Qed.

Lemma syncAdminUser_not_pending tenantDef adminUser r :
  User.State adminUser ≠ "pending" →
  Forall (λ ev, is_ActivateUserCall ev = false)
         (events (syncAdminUser tenantDef adminUser r)).
Proof.
  intros Hactive. unfold_methods. unfold syncAdminUser_triggerSync.
  rewrite decide_False by done. simpl.
  repeat step_method; repeat constructor.
Qed.

(** C3: in a run that resolves the admin user, when the state of that user
    is pending, the activation call on that user is made, no profile update
    call comes before it and no second activation call after it; when the
    state is not pending, the run makes no activation call at all. *)
Theorem pending_admin_activated_before_sync
    r tenantDef r1 t1 adminUser r2 t2 :
  reconcileTenant r = (Ok tenantDef, r1, t1) →
  fetchAdminUser tenantDef r1 = (Ok adminUser, r2, t2) →
  (User.State adminUser = "pending" →
     ∃ post,
       events (Run r) =
         (t1 ++ t2 ++ [LogInfo "Activating pending admin user"])
         ++ ActivateUserCall (Account.ID (account_of tenantDef)) (User.ID adminUser)
         :: post
       ∧ Forall (λ ev, is_UpdateUserCall ev = false)
                (t1 ++ t2 ++ [LogInfo "Activating pending admin user"])
       ∧ Forall (λ ev, is_ActivateUserCall ev = false) post)
  ∧ (User.State adminUser ≠ "pending" →
     Forall (λ ev, is_ActivateUserCall ev = false) (events (Run r))).
Proof.
  intros H1 H2.
  destruct (Run_events_after_tenant r tenantDef r1 t1 H1) as (rest & HRun & Hrest).
  assert (Hadmin : events (reconcileAdminUser tenantDef r1) =
                   t2 ++ events (syncAdminUser tenantDef adminUser r2)).
  { unfold reconcileAdminUser. by rewrite (bind_Ok _ _ _ _ _ _ H2). }
  pose proof (reconcileTenant_events r) as E1. rewrite H1 in E1.
  pose proof (fetchAdminUser_events tenantDef r1) as E2. rewrite H2 in E2.
  unfold events in E1, E2; simpl in E1, E2.
  assert (Hrest' : Forall (λ ev, is_ActivateUserCall ev = false) rest).
  { eapply Forall_impl; [exact Hrest|]. by intros []. }
  split.
  - intros Hpending.
    destruct (syncAdminUser_pending tenantDef adminUser r2 Hpending)
      as (post & Hsync & Hpost).
    exists (post ++ rest). rewrite HRun, Hadmin, Hsync.
    split; [by rewrite <- !app_assoc|]. split.
    + rewrite !Forall_app. repeat split.
      * revert E1. apply Forall_stage_events. by intros [].
      * eapply Forall_impl; [exact E2|]. by intros ev [_ ?].
      * by repeat constructor.
    + apply Forall_app. by split.
  - intros Hactive. rewrite HRun, Hadmin.
    rewrite !Forall_app. repeat split.
    + revert E1. apply Forall_stage_events. by intros [].
    + eapply Forall_impl; [exact E2|]. by intros ev [? _].
    + by apply syncAdminUser_not_pending.
    + exact Hrest'.
Qed.

(** The events of any run: those of the tenant stage, and then only events
    of the later stages. *)
Lemma Run_events_tenant_stage r :
  ∃ rest,
    events (Run r) = events (reconcileTenant r) ++ rest
    ∧ Forall (λ ev, admin_stage_event ev || secret_stage_event ev
                    || status_stage_event ev = true) rest.
Proof.
  destruct (reconcileTenant r) as [[[tenantDef|e] r1] t1] eqn:H1.
  2: { exists []. rewrite Run_stages, H1. unfold events; simpl.
       by rewrite app_nil_r. }
  destruct (Run_events_after_tenant r tenantDef r1 t1 H1) as (rest & HRun & Hrest).
  exists (events (reconcileAdminUser tenantDef r1) ++ rest).
  split; [done|]. apply Forall_app. split.
  - eapply Forall_impl; [apply reconcileAdminUser_events|].
    intros ev Hev; simpl in Hev. by rewrite Hev.
  - eapply Forall_impl; [exact Hrest|].
    intros ev Hev; simpl in Hev. rewrite <- orb_assoc, Hev. apply orb_true_r.
Qed.

Lemma syncTenant_triggerSync_true tR tenantDef :
  syncTenant_triggerSync tR tenantDef = true ↔
  TenantSpec.OrganizationName (TenantCR.Spec tR) ≠ Account.OrgName (account_of tenantDef)
  ∨ TenantSpec.Email (TenantCR.Spec tR) ≠ Account.SupportEmail (account_of tenantDef).
Proof.
  unfold syncTenant_triggerSync.
  repeat destruct (decide _); split; try done; tauto.
Qed.

(** The tenant stage when the account is found under the id of the status. *)
Lemma reconcileTenant_found r tenantDef w1 :
  TenantStatus.TenantId (TenantCR.Status (tenantR r)) ≠ 0 →
  ShowTenant (TenantStatus.TenantId (TenantCR.Status (tenantR r))) (world r)
    = (Ok tenantDef, w1) →
  events (reconcileTenant r) =
    [ShowTenantCall (TenantStatus.TenantId (TenantCR.Status (tenantR r)));
     LogInfo "Tenant already exists"]
    ++ (if syncTenant_triggerSync (tenantR r) tenantDef then
          [LogInfo "Syncing tenant";
           UpdateTenantCall (TenantStatus.TenantId (TenantCR.Status (tenantR r)))
                            (tenantSyncParams (tenantR r))]
        else []).
Proof.
  intros Hid Hshow. unfold_methods. unfold tenantSyncParams.
  rewrite decide_False by done. rewrite Hshow. simpl.
  destruct (syncTenant_triggerSync (tenantR r) tenantDef); simpl; [|done].
  by destruct (UpdateTenant _ _ w1) as [[?|?] ?].
Qed.

(** C4: in a run that finds the account under the id of the status, when
    the organization name of the spec differs from that of the account or
    the email of the spec differs from the support email of the account, one
    account update call is made, and its parameters carry the value of the
    spec for each of the two fields, so for each that differs; when both
    are equal, the run makes no account update call. *)
Theorem account_updated_exactly_on_drift r tenantDef w1 :
  let tR := tenantR r in
  let id := TenantStatus.TenantId (TenantCR.Status tR) in
  let orgName := TenantSpec.OrganizationName (TenantCR.Spec tR) in
  let email := TenantSpec.Email (TenantCR.Spec tR) in
  id ≠ 0 →
  ShowTenant id (world r) = (Ok tenantDef, w1) →
  (orgName ≠ Account.OrgName (account_of tenantDef)
   ∨ email ≠ Account.SupportEmail (account_of tenantDef) →
     ∃ post,
       events (Run r) =
         [ShowTenantCall id; LogInfo "Tenant already exists"; LogInfo "Syncing tenant";
          UpdateTenantCall id (tenantSyncParams tR)] ++ post
       ∧ Forall (λ ev, is_UpdateTenantCall ev = false) post
       ∧ tenantSyncParams tR !! "org_name" = Some orgName
       ∧ tenantSyncParams tR !! "support_email" = Some email)
  ∧ (orgName = Account.OrgName (account_of tenantDef)
     ∧ email = Account.SupportEmail (account_of tenantDef) →
     Forall (λ ev, is_UpdateTenantCall ev = false) (events (Run r))).
Proof.
  intros tR id orgName email Hid Hshow.
  destruct (Run_events_tenant_stage r) as (rest & HRun & Hrest).
  rewrite (reconcileTenant_found r tenantDef w1 Hid Hshow) in HRun.
  assert (Hrest' : Forall (λ ev, is_UpdateTenantCall ev = false) rest).
  { eapply Forall_impl; [exact Hrest|]. by intros []. }
  split.
  - intros Hdrift%syncTenant_triggerSync_true.
    fold tR in HRun, Hdrift. rewrite Hdrift in HRun.
    exists rest. split; [exact HRun|]. split; [exact Hrest'|].
    unfold tenantSyncParams. split; by simplify_map_eq.
  - intros [Horg Hemail].
    assert (Hsync : syncTenant_triggerSync tR tenantDef = false).
    { destruct (syncTenant_triggerSync tR tenantDef) eqn:E; [|done].
      apply syncTenant_triggerSync_true in E. by destruct E. }
    fold tR in HRun. rewrite Hsync in HRun. rewrite HRun.
    rewrite app_nil_r. by repeat constructor.
Qed.

(** The lookup of the account, case by case. *)
Lemma fetchTenant_no_id r :
  TenantStatus.TenantId (TenantCR.Status (tenantR r)) = 0 →
  fetchTenant r = (Ok None, r, []).
Proof. intros Hid. unfold_methods. by rewrite decide_True. Qed.

Lemma fetchTenant_lookup r :
  TenantStatus.TenantId (TenantCR.Status (tenantR r)) ≠ 0 →
  fetchTenant r =
    match ShowTenant (TenantStatus.TenantId (TenantCR.Status (tenantR r))) (world r) with
    | (Ok tenantDef, w1) =>
        (Ok (Some tenantDef), mkReconciler (tenantR r) w1,
         [ShowTenantCall (TenantStatus.TenantId (TenantCR.Status (tenantR r)))])
    | (Err e, w1) =>
        (if porta_IsNotFound e then Ok None else Err e,
         mkReconciler (tenantR r) w1,
         [ShowTenantCall (TenantStatus.TenantId (TenantCR.Status (tenantR r)))])
    end.
Proof.
  intros Hid. unfold_methods. rewrite decide_False by done.
  destruct (ShowTenant _ (world r)) as [[tenantDef|e] w1]; simpl; [done|].
  by destruct (porta_IsNotFound e).
Qed.

(** The account has to be created exactly when the status has no id or the
    lookup under its id reports not found. *)
Lemma fetchTenant_None r :
  result_of (fetchTenant r) = Ok None ↔
  TenantStatus.TenantId (TenantCR.Status (tenantR r)) = 0
  ∨ (TenantStatus.TenantId (TenantCR.Status (tenantR r)) ≠ 0
     ∧ ∃ e w1,
         ShowTenant (TenantStatus.TenantId (TenantCR.Status (tenantR r))) (world r)
           = (Err e, w1)
         ∧ porta_IsNotFound e = true).
Proof.
  destruct (decide (TenantStatus.TenantId (TenantCR.Status (tenantR r)) = 0)) as [Hid|Hid].
  - rewrite fetchTenant_no_id by done. split; [by left|done].
  - rewrite fetchTenant_lookup by done.
    destruct (ShowTenant _ (world r)) as [[tenantDef|e] w1]; unfold result_of; simpl.
    + split; [done|]. intros [?|(_ & e & w' & [=] & _)]; done.
    + destruct (porta_IsNotFound e) eqn:Hnf; split; try done.
      * intros _. right. split; [done|]. by exists e, w1.
      * intros [?|(_ & e' & w' & [= <- <-] & Hnf')]; [done|congruence].
Qed.

Lemma fetchTenant_events r :
  Forall (λ ev, is_CreateTenantCall ev = false) (events (fetchTenant r)).
Proof. unfold_methods. repeat step_method; repeat constructor. Qed.

Lemma getAdminPassword_events r :
  events (getAdminPassword r) = [GetCall (tenantAdminSecretNN (tenantR r))].
Proof. unfold_methods. unfold tenantAdminSecretNN. by repeat step_method. Qed.

Lemma syncTenant_events tenantDef r :
  Forall (λ ev, is_CreateTenantCall ev = false) (events (syncTenant tenantDef r)).
Proof.
  unfold_methods. unfold syncTenant_triggerSync.
  repeat step_method; repeat constructor.
Qed.

Lemma fetchTenant_tenantR r : tenantR (after (fetchTenant r)) = tenantR r.
Proof. unfold_methods. by repeat step_method. Qed.

(** The events of the tenant stage: the lookup, and then either the
    creation or the sync. *)
Lemma reconcileTenant_creation r :
  let r' := after (fetchTenant r) in
  events (reconcileTenant r) =
    events (fetchTenant r) ++
    match result_of (fetchTenant r) with
    | Ok None =>
        GetCall (tenantAdminSecretNN (tenantR r)) ::
        match result_of (getAdminPassword r') with
        | Ok password =>
            [LogInfo "Creating a new tenant";
             CreateTenantCall (TenantSpec.OrganizationName (TenantCR.Spec (tenantR r)))
                              (TenantSpec.Username (TenantCR.Spec (tenantR r)))
                              (TenantSpec.Email (TenantCR.Spec (tenantR r)))
                              password]
        | Err _ => []
        end
    | Ok (Some tenantDef) => LogInfo "Tenant already exists" :: events (syncTenant tenantDef r')
    | Err _ => []
    end.
Proof.
  intros r'. pose proof (fetchTenant_tenantR r) as HtR. fold r' in HtR.
  unfold reconcileTenant.
  destruct (fetchTenant r) as [[[[tenantDef|]|e] r1] t1] eqn:Hfetch;
    unfold r', after in *; simpl in *.
  - rewrite (bind_Ok _ _ _ _ _ _ Hfetch).
    unfold events at 1; simpl. f_equal.
    unfold mbind, M_bind, logger_Info, events.
    by destruct (syncTenant tenantDef r1) as [[? ?] ?].
  - rewrite (bind_Ok _ _ _ _ _ _ Hfetch).
    unfold events at 1; simpl. f_equal.
    pose proof (getAdminPassword_events r1) as Hpw. rewrite HtR in Hpw.
    unfold createTenant.
    destruct (getAdminPassword r1) as [[[password|e] r2] t2] eqn:Hget;
      unfold events in Hpw; simpl in Hpw; subst t2.
    + rewrite (bind_Ok _ _ _ _ _ _ Hget).
      assert (HtR2 : tenantR r2 = tenantR r).
      { revert Hget. unfold_methods. repeat step_method; intros [= <- <-]; done. }
      unfold_methods. simpl. rewrite HtR2.
      by destruct (CreateTenant _ _ _ _ (world r2)) as [? ?].
    + by rewrite (bind_Err _ _ _ _ _ _ Hget).
  - rewrite (bind_Err _ _ _ _ _ _ Hfetch). unfold events; simpl.
    by rewrite app_nil_r.
Qed.

(** Where a creation call can be in a run, and what it is. *)
Lemma creation_call_of_run r ev :
  ev ∈ events (Run r) → is_CreateTenantCall ev = true →
  result_of (fetchTenant r) = Ok None
  ∧ ∃ password,
      result_of (getAdminPassword (after (fetchTenant r))) = Ok password
      ∧ ev = CreateTenantCall (TenantSpec.OrganizationName (TenantCR.Spec (tenantR r)))
                              (TenantSpec.Username (TenantCR.Spec (tenantR r)))
                              (TenantSpec.Email (TenantCR.Spec (tenantR r)))
                              password.
Proof.
  intros Hin Hev.
  destruct (Run_events_tenant_stage r) as (rest & HRun & Hrest).
  rewrite HRun, reconcileTenant_creation in Hin.
  rewrite !elem_of_app in Hin. destruct Hin as [[Hin|Hin]|Hin].
  - pose proof (fetchTenant_events r) as E. rewrite Forall_forall in E.
    specialize (E ev Hin). simpl in E. congruence.
  - destruct (result_of (fetchTenant r)) as [[tenantDef|]|e].
    + apply elem_of_cons in Hin as [->|Hin]; [done|].
      pose proof (syncTenant_events tenantDef (after (fetchTenant r))) as E.
      rewrite Forall_forall in E. specialize (E ev Hin). simpl in E. congruence.
    + split; [done|].
      apply elem_of_cons in Hin as [->|Hin]; [done|].
      destruct (result_of (getAdminPassword _)) as [password|e].
      * exists password. split; [done|].
        apply elem_of_cons in Hin as [->|Hin]; [done|].
        by apply list_elem_of_singleton in Hin.
      * by apply elem_of_nil in Hin.
    + by apply elem_of_nil in Hin.
  - rewrite Forall_forall in Hrest. specialize (Hrest ev Hin). simpl in Hrest.
    by destruct ev.
Qed.

(** C1, amended: the account creation call is made exactly when the status
    has no account id, or has one under which the lookup reports not found,
    and the password can be read from the referenced secret; the call then
    carries the organization name, username and email of the spec and that
    password; a lookup error other than not found ends the run with that
    error, after the lookup call alone. *)
Theorem account_created_when_missing_and_password_read r :
  let tR := tenantR r in
  let id := TenantStatus.TenantId (TenantCR.Status tR) in
  (Exists (λ ev, is_CreateTenantCall ev = true) (events (Run r)) ↔
     (id = 0
      ∨ (id ≠ 0 ∧ ∃ e w1, ShowTenant id (world r) = (Err e, w1)
                          ∧ porta_IsNotFound e = true))
     ∧ ∃ password, result_of (getAdminPassword (after (fetchTenant r))) = Ok password)
  ∧ (∀ ev, ev ∈ events (Run r) → is_CreateTenantCall ev = true →
       ∃ password,
         result_of (getAdminPassword (after (fetchTenant r))) = Ok password
         ∧ ev = CreateTenantCall (TenantSpec.OrganizationName (TenantCR.Spec tR))
                                 (TenantSpec.Username (TenantCR.Spec tR))
                                 (TenantSpec.Email (TenantCR.Spec tR))
                                 password)
  ∧ (∀ e w1, id ≠ 0 → ShowTenant id (world r) = (Err e, w1) →
       porta_IsNotFound e = false →
       Run r = (Err e, mkReconciler tR w1, [ShowTenantCall id])).
Proof.
  intros tR id. split; [|split].
  - rewrite Exists_exists. split.
    + intros (ev & Hin & Hev).
      destruct (creation_call_of_run r ev Hin Hev) as (Hnone & password & Hpw & _).
      split; [by apply fetchTenant_None|by exists password].
    + intros [Hnone%fetchTenant_None (password & Hpw)].
      destruct (Run_events_tenant_stage r) as (rest & HRun & _).
      rewrite HRun, reconcileTenant_creation, Hnone, Hpw.
      exists (CreateTenantCall (TenantSpec.OrganizationName (TenantCR.Spec tR))
                               (TenantSpec.Username (TenantCR.Spec tR))
                               (TenantSpec.Email (TenantCR.Spec tR)) password).
      split; [|reflexivity].
      rewrite !elem_of_app. left. right.
      do 2 apply list_elem_of_further. apply list_elem_of_here.
  - intros ev Hin Hev.
    by destruct (creation_call_of_run r ev Hin Hev) as (_ & Hpw).
  - intros e w1 Hid Hshow Hnf.
    rewrite Run_stages. unfold reconcileTenant.
    assert (Hfetch : fetchTenant r = (Err e, mkReconciler tR w1, [ShowTenantCall id])).
    { rewrite fetchTenant_lookup by done. fold tR id. by rewrite Hshow, Hnf. }
    by rewrite (bind_Err _ _ _ _ _ _ Hfetch).
Qed.

(** C9: the password is read with one get call, under the name of the
    password reference and in the namespace of the record; another namespace
    in the reference changes neither the call nor what is read; and in a run
    that makes the account creation call this get call comes before it. *)
Theorem password_read_in_the_namespace_of_the_record r :
  let tR := tenantR r in
  let nn := NamespacedName.mk
              (SecretReference.Name (TenantSpec.PasswordCredentialsRef (TenantCR.Spec tR)))
              (TenantCR.Namespace tR) in
  events (getAdminPassword r) = [GetCall nn]
  ∧ (∀ ns,
       let r' := mkReconciler (with_password_namespace ns tR) (world r) in
       events (getAdminPassword r') = [GetCall nn]
       ∧ result_of (getAdminPassword r') = result_of (getAdminPassword r)
       ∧ world (after (getAdminPassword r')) = world (after (getAdminPassword r)))
  ∧ (∀ pre ev post,
       events (Run r) = pre ++ ev :: post → is_CreateTenantCall ev = true →
       GetCall nn ∈ pre).
Proof.
  intros tR nn. split; [|split].
  - apply getAdminPassword_events.
  - intros ns r'. split; [apply getAdminPassword_events|].
    unfold_methods. unfold r', tR; simpl.
    destruct (Get _ (world r)) as [[secret|e] w1]; simpl; [|done].
    by destruct (Secret.Data secret !! TenantAdminPasswordSecretField).
  - intros pre ev post Hsplit Hev.
    assert (Hin : ev ∈ events (Run r)).
    { rewrite Hsplit. apply elem_of_app. right. apply list_elem_of_here. }
    destruct (creation_call_of_run r ev Hin Hev) as (Hnone & password & Hpw & ->).
    destruct (Run_events_tenant_stage r) as (rest & HRun & _).
    rewrite HRun, reconcileTenant_creation, Hnone, Hpw in Hsplit.
    fold tR in Hsplit.
    pose proof (fetchTenant_events r) as E.
    revert Hsplit E. generalize (events (fetchTenant r)) as t0. intros t0 Hsplit E.
    revert pre Hsplit. induction E as [|x t0 Hx _ IH]; intros pre Hsplit.
    + simpl in Hsplit. destruct pre as [|p0 pre]; [done|].
      injection Hsplit as <- Hsplit. apply list_elem_of_here.
    + destruct pre as [|p0 pre].
      * simpl in Hsplit. injection Hsplit as -> _. simpl in Hx. done.
      * simpl in Hsplit. injection Hsplit as <- Hsplit.
        apply list_elem_of_further. by apply IH.
Qed.

(** C2, amended: in a run whose record has an admin id in its status, the
    user is fetched by account id and user id, and an error of that fetch,
    not found or other, ends the run with that error; the users are not
    listed. *)
Theorem admin_fetch_error_fails_the_run r tenantDef r1 t1 e w2 :
  reconcileTenant r = (Ok tenantDef, r1, t1) →
  TenantStatus.AdminId (TenantCR.Status (tenantR r)) ≠ 0 →
  ReadUser (Account.ID (account_of tenantDef))
           (TenantStatus.AdminId (TenantCR.Status (tenantR r))) (world r1)
    = (Err e, w2) →
  Run r =
    (Err e, mkReconciler (tenantR r) w2,
     t1 ++ [ReadUserCall (Account.ID (account_of tenantDef))
                         (TenantStatus.AdminId (TenantCR.Status (tenantR r)))])
  ∧ Forall (λ ev, is_ListUsersCall ev = false) (events (Run r)).
Proof.
  intros H1 Hid Hread.
  assert (HtR : tenantR r1 = tenantR r).
  { pose proof (reconcileTenant_tenantR r) as E1. by rewrite H1 in E1. }
  assert (HRun : Run r =
    (Err e, mkReconciler (tenantR r) w2,
     t1 ++ [ReadUserCall (Account.ID (account_of tenantDef))
                         (TenantStatus.AdminId (TenantCR.Status (tenantR r)))])).
  { rewrite Run_stages, H1.
    unfold reconcileAdminUser, fetchAdminUser, portaClient_ReadUser,
      mbind, M_bind, mret, M_ret, read_tenantR, call.
    simpl. rewrite HtR, decide_False by done. rewrite Hread. simpl.
    by rewrite HtR. }
  split; [exact HRun|].
  rewrite HRun. unfold events; simpl. apply Forall_app. split.
  - pose proof (reconcileTenant_events r) as E1. rewrite H1 in E1.
    revert E1. apply Forall_stage_events. by intros [].
  - by repeat constructor.
Qed.

End Claims.

(** ** A run that finds everything in sync *)

Section InSync.
Context {W : Type} `{!ThreeScaleClient W, !K8sClient W, !Package}.
Implicit Types r : InternalReconciler W.

(** When the three reads answer with an account, a user and a secret that
    agree with the record, the run makes these three reads and nothing else. *)
Lemma Run_in_sync r tenantDef w1 adminUser w2 secret w3 :
  let tR := tenantR r in
  let id := TenantStatus.TenantId (TenantCR.Status tR) in
  let adminId := TenantStatus.AdminId (TenantCR.Status tR) in
  id ≠ 0 →
  ShowTenant id (world r) = (Ok tenantDef, w1) →
  Account.ID (account_of tenantDef) = id →
  TenantSpec.OrganizationName (TenantCR.Spec tR) = Account.OrgName (account_of tenantDef) →
  TenantSpec.Email (TenantCR.Spec tR) = Account.SupportEmail (account_of tenantDef) →
  adminId ≠ 0 →
  ReadUser id adminId w1 = (Ok adminUser, w2) →
  User.ID adminUser = adminId →
  User.State adminUser ≠ "pending" →
  TenantSpec.Username (TenantCR.Spec tR) = User.UserName adminUser →
  TenantSpec.Email (TenantCR.Spec tR) = User.Email adminUser →
  Get (tenantProviderKeySecretNN tR) w2 = (Ok secret, w3) →
  Run r = (Ok tt, mkReconciler tR w3, in_sync_events tR).
Proof.
  intros tR id adminId Hid Hshow HID Horg Hemail Haid Hread HUID Hstate Huser Huemail Hget.
  assert (H1 : reconcileTenant r =
               (Ok tenantDef, mkReconciler tR w1,
                [ShowTenantCall id; LogInfo "Tenant already exists"])).
  { unfold reconcileTenant.
    assert (Hfetch : fetchTenant r =
                     (Ok (Some tenantDef), mkReconciler tR w1, [ShowTenantCall id])).
    { rewrite fetchTenant_lookup by done. fold tR id. by rewrite Hshow. }
    rewrite (bind_Ok _ _ _ _ _ _ Hfetch).
    unfold syncTenant, syncTenant_triggerSync, logger_Info, read_tenantR,
      mbind, M_bind, mret, M_ret, result_of, after, events. simpl.
    rewrite (decide_False (P := _ ≠ Account.OrgName _)) by (intros ?; done).
    by rewrite (decide_False (P := _ ≠ Account.SupportEmail _)) by (intros ?; done). }
  assert (H2 : reconcileAdminUser tenantDef (mkReconciler tR w1) =
               (Ok adminUser, mkReconciler tR w2,
                [ReadUserCall id adminId; LogInfo "Admin user already active"])).
  { unfold reconcileAdminUser, fetchAdminUser, syncAdminUser, syncAdminUser_triggerSync,
      portaClient_ReadUser, call, logger_Info, read_tenantR, mbind, M_bind, mret, M_ret.
    simpl. fold id adminId.
    rewrite (decide_False (P := adminId = 0)) by done. simpl.
    rewrite HID, Hread. simpl.
    rewrite (decide_False (P := User.State adminUser = "pending")) by done. simpl.
    rewrite (decide_False (P := _ ≠ User.UserName _)) by (intros ?; done).
    by rewrite (decide_False (P := _ ≠ User.Email _)) by (intros ?; done). }
  assert (H3 : reconcileAccessTokenSecret tenantDef (mkReconciler tR w2) =
               (Ok tt, mkReconciler tR w3,
                [GetCall (tenantProviderKeySecretNN tR);
                 LogInfo "Admin user access token secret already exists"])).
  { unfold reconcileAccessTokenSecret, findAccessTokenSecret, attempt, k8sClient_Get,
      call, logger_Info, read_tenantR, mbind, M_bind, mret, M_ret.
    simpl. fold (tenantProviderKeySecretNN tR). by rewrite Hget. }
  rewrite Run_stages, H1, H2, H3.
  rewrite updateTenantStatus_equal; [done|].
  unfold getTenantStatus. simpl. rewrite HID, HUID.
  unfold id, adminId. by destruct (TenantCR.Status tR).
Qed.

End InSync.

(** ** Runs against the reference remote *)

(** Unfolds the calls of the reference remote. *)
Ltac unfold_remote :=
  unfold remote_ShowTenant, remote_CreateTenant, remote_UpdateTenant, remote_ListUsers,
    remote_ReadUser, remote_UpdateUser, remote_ActivateUser, remote_ListApplications,
    remote_Get, remote_Create, remote_StatusUpdate in *.

Lemma remote_account_Some w id p a :
  remote_account w id = Some (p, a) → id = Zpos p ∧ accounts w !! p = Some a.
Proof.
  unfold remote_account, as_id. destruct id as [|p'|p']; simpl; try done.
  destruct (accounts w !! p') as [a'|] eqn:E; simpl; [|done].
  by intros [= <- <-].
Qed.

Lemma remote_user_Some w accountID userID p q u :
  remote_user w accountID userID = Some (p, q, u) →
  accountID = Zpos p ∧ userID = Zpos q ∧ users w !! (p, q) = Some u.
Proof.
  unfold remote_user, as_id.
  destruct accountID as [|p'|p'], userID as [|q'|q']; simpl; try done.
  destruct (users w !! (p', q')) as [u'|] eqn:E; simpl; [|done].
  by intros [= <- <- <-].
Qed.

Lemma remote_user_lookup w p q u :
  users w !! (p, q) = Some u → remote_user w (Zpos p) (Zpos q) = Some (p, q, u).
Proof. intros Hu. unfold remote_user, as_id. simpl. by rewrite Hu. Qed.

Lemma remote_account_lookup w p a :
  accounts w !! p = Some a → remote_account w (Zpos p) = Some (p, a).
Proof. intros Ha. unfold remote_account, as_id. simpl. by rewrite Ha. Qed.

(** A listed user is a user of the store, shown under its id. *)
Lemma remote_users_of_elem p filterParams w x :
  x ∈ remote_users_of p filterParams w →
  ∃ q u, UserElem.User x = show_user q u ∧ users w !! (p, q) = Some u.
Proof.
  unfold remote_users_of. rewrite list_elem_of_omap.
  intros ([[p' q] u] & Hin & Hx). simpl in Hx.
  apply elem_of_map_to_list in Hin.
  destruct (bool_decide (p' = p)) eqn:Hp; simpl in Hx; [|done].
  apply bool_decide_eq_true in Hp as ->.
  destruct (passes_filter filterParams u); [|done].
  injection Hx as <-. by exists q, u.
Qed.

Section ReferenceRemote.
Context `{!Package}.
Implicit Types r : InternalReconciler Remote.

(** After the tenant stage the account of the run is in the store with the
    organization name and email of the spec. *)
Lemma remote_reconcileTenant r tenantDef r1 t1 :
  reconcileTenant r = (Ok tenantDef, r1, t1) →
  ∃ p a,
    Account.ID (account_of tenantDef) = Zpos p
    ∧ accounts (world r1) !! p = Some a
    ∧ Account.OrgName a = TenantSpec.OrganizationName (TenantCR.Spec (tenantR r))
    ∧ Account.SupportEmail a = TenantSpec.Email (TenantCR.Spec (tenantR r)).
Proof.
  unfold_methods. simpl. unfold_remote. unfold syncTenant_triggerSync.
  repeat step_method; intros [= <- <- <-]; simpl.
  all: repeat match goal with H : remote_account _ _ = Some _ |- _ =>
         apply remote_account_Some in H as [? ?] end.
  all: simplify_eq.
  all: eexists _, _; (split; [reflexivity|]).
  all: (split; [first [apply lookup_insert_eq | eassumption]|]); simpl.
  all: try (split; by simplify_map_eq).
  split; symmetry; by apply dec_stable.
Qed.

(** The admin the run resolves is a user of the account in the store. *)
Lemma remote_fetchAdminUser r tenantDef p adminUser r1 t :
  Account.ID (account_of tenantDef) = Zpos p →
  fetchAdminUser tenantDef r = (Ok adminUser, r1, t) →
  r1 = r
  ∧ ∃ q u, adminUser = show_user q u ∧ users (world r) !! (p, q) = Some u.
Proof.
  intros HID. unfold_methods. simpl. unfold_remote. rewrite HID.
  destruct r as [tR w]; simpl.
  repeat step_method; intros [= <- <- <-]; (split; [done|]).
  - match goal with H : remote_account _ _ = Some _ |- _ =>
      apply remote_account_Some in H as [[= <-] _] end.
    match goal with H : findAdminUser_scan _ _ = Some _ |- _ =>
      apply findAdminUser_scan_Some in H as (pre & x & post & Hl & <- & _) end.
    destruct (remote_users_of_elem p (<["role":="admin"]> ∅) w x) as (q & u & Hx & Hu).
    { rewrite Hl. apply elem_of_app. right. apply list_elem_of_here. }
    by exists q, u.
  - match goal with H : remote_user _ _ _ = Some _ |- _ =>
      apply remote_user_Some in H as ([= <-] & _ & Hu) end.
    by eexists _, _.
Qed.


Lemma syncAdminUser_triggerSync_false tR adminUser :
  syncAdminUser_triggerSync tR adminUser = false →
  User.UserName adminUser = TenantSpec.Username (TenantCR.Spec tR)
  ∧ User.Email adminUser = TenantSpec.Email (TenantCR.Spec tR).
Proof.
  unfold syncAdminUser_triggerSync. repeat destruct (decide _); try done.
  intros _. split; symmetry; by apply dec_stable.
Qed.

(** After the activation and the sync the user of the run is in the store,
    not pending, with the username and email of the spec. *)
Lemma remote_syncAdminUser r tenantDef p q u0 adminUserDef r2 t :
  Account.ID (account_of tenantDef) = Zpos p →
  users (world r) !! (p, q) = Some u0 →
  syncAdminUser tenantDef (show_user q u0) r = (Ok adminUserDef, r2, t) →
  tenantR r2 = tenantR r
  ∧ accounts (world r2) = accounts (world r)
  ∧ secrets (world r2) = secrets (world r)
  ∧ User.ID adminUserDef = Zpos q
  ∧ ∃ u,
      users (world r2) !! (p, q) = Some u
      ∧ User.State u ≠ "pending"
      ∧ User.UserName u = TenantSpec.Username (TenantCR.Spec (tenantR r))
      ∧ User.Email u = TenantSpec.Email (TenantCR.Spec (tenantR r)).
Proof.
  intros HID Hu. destruct r as [tR w]; simpl in *.
  unfold syncAdminUser, activateAdminUser, portaClient_ActivateUser, portaClient_UpdateUser,
    call, logger_Info, read_tenantR, mbind, M_bind, mret, M_ret.
  simpl. rewrite HID.
  destruct (decide (User.State u0 = "pending")) as [Hpending|Hactive]; simpl.
  - unfold remote_ActivateUser. rewrite (remote_user_lookup _ _ _ _ Hu). simpl.
    destruct (syncAdminUser_triggerSync tR (show_user q u0)) eqn:Htrig; simpl.
    + unfold remote_UpdateUser, remote_user, as_id. simpl. rewrite lookup_insert_eq. simpl.
      intros [= <- <- <-]. simpl. repeat (split; [done|]).
      eexists. split; [apply lookup_insert_eq|]. simpl.
      split; [done|]. split; by simplify_map_eq.
    + intros [= <- <- <-]. simpl. repeat (split; [done|]).
      eexists. split; [apply lookup_insert_eq|]. simpl.
      split; [done|]. by apply (syncAdminUser_triggerSync_false tR (show_user q u0)).
  - destruct (syncAdminUser_triggerSync tR (show_user q u0)) eqn:Htrig; simpl.
    + unfold remote_UpdateUser. rewrite (remote_user_lookup _ _ _ _ Hu). simpl.
      intros [= <- <- <-]. simpl. repeat (split; [done|]).
      eexists. split; [apply lookup_insert_eq|]. simpl.
      split; [done|]. split; by simplify_map_eq.
    + intros [= <- <- <-]. simpl. repeat (split; [done|]).
      exists u0. split; [done|]. split; [done|].
      by apply (syncAdminUser_triggerSync_false tR (show_user q u0)).
Qed.

(** After the secret stage the token secret is in the store, and the
    accounts and users are as before. *)
Lemma remote_reconcileAccessTokenSecret r tenantDef r3 t :
  reconcileAccessTokenSecret tenantDef r = (Ok tt, r3, t) →
  tenantR r3 = tenantR r
  ∧ accounts (world r3) = accounts (world r)
  ∧ users (world r3) = users (world r)
  ∧ is_Some (secrets (world r3)
               !! (NamespacedName.Namespace (tenantProviderKeySecretNN (tenantR r)),
                   NamespacedName.Name (tenantProviderKeySecretNN (tenantR r)))).
Proof.
  destruct r as [tR w]. unfold_methods. simpl. unfold_remote. simpl.
  repeat step_method; intros [= <- <-]; simpl; repeat (split; [done|]).
  - done.
  - by rewrite lookup_insert_eq.
Qed.

(** After the status stage the record holds the candidate, and the stores
    of the remote are as before. *)
Lemma remote_updateTenantStatus st r r4 t :
  updateTenantStatus st r = (Ok tt, r4, t) →
  TenantCR.Status (tenantR r4) = st
  ∧ TenantCR.Spec (tenantR r4) = TenantCR.Spec (tenantR r)
  ∧ accounts (world r4) = accounts (world r)
  ∧ users (world r4) = users (world r)
  ∧ secrets (world r4) = secrets (world r).
Proof.
  destruct r as [tR w]. unfold_methods. simpl. unfold_remote. simpl.
  repeat step_method; intros [= <- <-]; simpl; done.
Qed.

(** A run that succeeds leaves the reference remote in sync. *)
Lemma Run_Ok_Synced r : result_of (Run r) = Ok tt → Synced (after (Run r)).
Proof.
  rewrite Run_stages.
  destruct (reconcileTenant r) as [[[tenantDef|e] r1] t1] eqn:H1; [|done].
  destruct (reconcileAdminUser tenantDef r1) as [[[adminUserDef|e] r2] t2] eqn:H2; [|done].
  destruct (reconcileAccessTokenSecret tenantDef r2) as [[[[]|e] r3] t3] eqn:H3; [|done].
  destruct (updateTenantStatus (getTenantStatus tenantDef adminUserDef) r3)
    as [[[[]|e] r4] t4] eqn:H4; [|done].
  intros _. unfold after; simpl.
  pose proof (reconcileTenant_tenantR r) as HtR1. rewrite H1 in HtR1.
  unfold after in HtR1; simpl in HtR1.
  destruct (remote_reconcileTenant r tenantDef r1 t1 H1) as (p & a & HID & Ha & Horg & Hemail).
  unfold reconcileAdminUser in H2.
  destruct (fetchAdminUser tenantDef r1) as [[[adminUser|e] r1'] t] eqn:Hfetch.
  2: { by rewrite (bind_Err _ _ _ _ _ _ Hfetch) in H2. }
  rewrite (bind_Ok _ _ _ _ _ _ Hfetch) in H2.
  destruct (remote_fetchAdminUser r1 tenantDef p adminUser r1' t HID Hfetch)
    as (-> & q & u0 & -> & Hu0).
  destruct (syncAdminUser tenantDef (show_user q u0) r1) as [[y r2'] t2'] eqn:Hsync.
  unfold result_of, after, events in H2; simpl in H2. injection H2 as -> -> _.
  destruct (remote_syncAdminUser r1 tenantDef p q u0 adminUserDef r2 t2' HID Hu0 Hsync)
    as (HtR2 & Hacc2 & _ & HUID & u & Hu & Hstate & Huser & Huemail).
  destruct (remote_reconcileAccessTokenSecret r2 tenantDef r3 t3 H3)
    as (HtR3 & Hacc3 & Husers3 & Hsecret).
  destruct (remote_updateTenantStatus _ r3 r4 t4 H4)
    as (Hstatus & Hspec & Hacc4 & Husers4 & Hsecrets4).
  assert (Hspec' : TenantCR.Spec (tenantR r4) = TenantCR.Spec (tenantR r)).
  { by rewrite Hspec, HtR3, HtR2, HtR1. }
  exists p, q, a, u. unfold tenantProviderKeySecretNN in *.
  rewrite Hspec', Hacc4, Hacc3, Hacc2, Husers4, Husers3, Hsecrets4.
  rewrite HtR1 in Huser, Huemail. rewrite HtR2, HtR1 in Hsecret.
  rewrite Hstatus. unfold getTenantStatus. by rewrite HID, HUID.
Qed.

(** A run against a remote in sync makes the three reads and changes
    nothing. *)
Lemma Synced_Run r : Synced r → Run r = (Ok tt, r, in_sync_events (tenantR r)).
Proof.
  intros (p & q & a & u & Hstatus & Ha & Horg & Hemail & Hu & Hstate & Huser & Huemail
          & [secret Hsecret]).
  destruct r as [tR w]; simpl in *.
  apply (Run_in_sync (mkReconciler tR w) (show_account p a) w (show_user q u) w secret w);
    simpl; rewrite ?Hstatus; simpl; try done.
  - unfold remote_ShowTenant. by rewrite (remote_account_lookup _ _ _ Ha).
  - unfold remote_ReadUser. by rewrite (remote_user_lookup _ _ _ _ Hu).
  - unfold remote_Get. simpl. by rewrite Hsecret.
Qed.

(** C8: against the reference remote, where nothing changes but through
    the calls of the run, a run that follows a run that succeeded succeeds
    and only reads: it makes no account create or update call, no user
    update or activation call, no secret create call and no status update
    call, and it leaves the remote and the status of the record as they
    were. *)
Theorem second_run_only_reads r :
  result_of (Run r) = Ok tt →
  let r1 := after (Run r) in
  result_of (Run r1) = Ok tt
  ∧ Forall (λ ev, is_write ev = false) (events (Run r1))
  ∧ world (after (Run r1)) = world r1
  ∧ TenantCR.Status (tenantR (after (Run r1))) = TenantCR.Status (tenantR r1).
Proof.
  intros Hok%Run_Ok_Synced r1. fold r1 in Hok.
  rewrite (Synced_Run r1 Hok). unfold result_of, after, events; simpl.
  repeat split; try done. by repeat constructor.
Qed.

End ReferenceRemote.

(** ** The claims at concrete runs *)

(** Evaluates a goal about a concrete run. *)
Ltac run_concrete :=
  vm_compute; first [reflexivity | discriminate | by repeat constructor].

(** The first run of a new tenant reaches the status stage with a status that
    differs, persists it and succeeds. *)
Lemma status_written_only_when_changed_witness :
  result_of (Run Scenario.first_run) = Ok tt
  ∧ TenantCR.Status (tenantR (after (Run Scenario.first_run))) = TenantStatus.mk 1 1.
Proof.
  pose (r := Scenario.first_run).
  pose (x1 := reconcileTenant r).
  pose (x2 := reconcileAdminUser Scenario.created_tenant (after x1)).
  pose (x3 := reconcileAccessTokenSecret Scenario.created_tenant (after x2)).
  opose proof* (status_written_only_when_changed r
                  Scenario.created_tenant Scenario.created_admin
                  (after x1) (events x1) (after x2) (events x2)
                  (after x3) (events x3)) as Hthm;
    [run_concrete ..|].
  cbv zeta in Hthm. destruct Hthm as (_ & _ & Hdiff).
  destruct Hdiff as (HRun & _); [run_concrete|].
  unfold r in HRun. rewrite HRun. split; run_concrete.
Defined.

(** The resource is gone from the cluster: the status update fails, the run
    returns its error, and the record holds the new status all the same. *)
Lemma failed_status_update_keeps_new_status_witness :
  result_of (Run Scenario.deleted_meanwhile) = Err k8s_not_found
  ∧ TenantCR.Status (tenantR Scenario.deleted_meanwhile) = TenantStatus.mk 0 0
  ∧ TenantCR.Status (tenantR (after (Run Scenario.deleted_meanwhile)))
    = TenantStatus.mk 1 1.
Proof.
  pose (r := Scenario.deleted_meanwhile).
  pose (x1 := reconcileTenant r).
  pose (x2 := reconcileAdminUser Scenario.created_tenant (after x1)).
  pose (x3 := reconcileAccessTokenSecret Scenario.created_tenant (after x2)).
  opose proof* (failed_status_update_keeps_new_status r
                  Scenario.created_tenant Scenario.created_admin
                  (after x1) (events x1) (after x2) (events x2)
                  (after x3) (events x3) k8s_not_found (world (after x3))) as Hthm;
    [run_concrete ..|].
  destruct Hthm as (Hres & Hstatus & _).
  split; [exact Hres|]. split; [reflexivity|exact Hstatus].
Defined.

(** Two applications on the account: the run fails and creates no secret. *)
Lemma unexpected_application_list_creates_no_secret_witness :
  result_of (Run Scenario.two_applications)
    = Err (Errorf "Unexpected application list. TenantId: 1")
  ∧ Forall (λ ev, is_CreateCall ev = false) (events (Run Scenario.two_applications)).
Proof.
  pose (r := Scenario.two_applications).
  pose (x1 := reconcileTenant r).
  pose (x2 := reconcileAdminUser Scenario.shown_tenant (after x1)).
  opose proof* (unexpected_application_list_creates_no_secret r
                  Scenario.shown_tenant Scenario.admin1
                  (after x1) (events x1) (after x2) (events x2)
                  k8s_not_found (world (after x2))
                  (ApplicationList.mk
                     [ApplicationElem.mk (Application.mk "provider-key");
                      ApplicationElem.mk (Application.mk "other-key")])
                  (world (after x2))) as Hthm;
    [run_concrete ..|].
  destruct Hthm as (HRun & Hquiet).
  split; [|exact Hquiet].
  unfold r in HRun. rewrite HRun. reflexivity.
Defined.

(** The admin of a new account is found by listing its admins. *)
Lemma admin_found_by_scanning_the_admins_witness :
  fetchAdminUser Scenario.created_tenant (after (reconcileTenant Scenario.first_run))
  = (Ok Scenario.created_admin,
     mkReconciler Scenario.new_tenant (world (after (reconcileTenant Scenario.first_run))),
     [ListUsersCall 1 adminFilterParams]).
Proof.
  pose (r := Scenario.first_run).
  pose (x1 := reconcileTenant r).
  opose proof* (admin_found_by_scanning_the_admins r Scenario.created_tenant
                  (after x1) (events x1)
                  (UserList.mk [UserElem.mk Scenario.created_admin])
                  (world (after x1))) as Hthm;
    [run_concrete ..|].
  destruct Hthm as (Hfound & _).
  apply (Hfound [] (UserElem.mk Scenario.created_admin) []);
    [reflexivity|constructor|split; reflexivity].
Defined.

(** The admin of a new account is pending and is activated. *)
Lemma pending_admin_activated_before_sync_witness :
  ∃ pre post,
    events (Run Scenario.first_run) = pre ++ ActivateUserCall 1 1 :: post
    ∧ Forall (λ ev, is_UpdateUserCall ev = false) pre
    ∧ Forall (λ ev, is_ActivateUserCall ev = false) post.
Proof.
  pose (r := Scenario.first_run).
  pose (x1 := reconcileTenant r).
  pose (x2 := fetchAdminUser Scenario.created_tenant (after x1)).
  opose proof* (pending_admin_activated_before_sync r Scenario.created_tenant
                  (after x1) (events x1) Scenario.created_admin
                  (after x2) (events x2)) as Hthm;
    [run_concrete ..|].
  destruct Hthm as (Hpending & _).
  destruct (Hpending eq_refl) as (post & HRun & Hpre & Hpost).
  eexists _, post. split; [exact HRun|]. by split.
Defined.

(** An old organization name on the account: one update call with the name
    of the spec. *)
Lemma account_updated_exactly_on_drift_witness :
  ∃ post,
    events (Run Scenario.drifted) =
      [ShowTenantCall 1; LogInfo "Tenant already exists"; LogInfo "Syncing tenant";
       UpdateTenantCall 1 (tenantSyncParams Scenario.synced_tenant)] ++ post
    ∧ Forall (λ ev, is_UpdateTenantCall ev = false) post
    ∧ tenantSyncParams Scenario.synced_tenant !! "org_name" = Some "Example".
Proof.
  pose (r := Scenario.drifted).
  opose proof* (account_updated_exactly_on_drift r
                  (Tenant.mk (Signup.mk Scenario.old_account)) (world r)) as Hthm;
    [run_concrete ..|].
  cbv zeta in Hthm. destruct Hthm as (Hdrift & _).
  destruct Hdrift as (post & HRun & Hpost & Horg & _).
  { left. run_concrete. }
  exists post. split; [exact HRun|]. by split.
Defined.

(** A stale admin id: the fetch reports not found and the run fails with
    that error. *)
Lemma admin_fetch_error_fails_the_run_witness :
  result_of (Run Scenario.stale_admin_id) = Err porta_not_found
  ∧ Forall (λ ev, is_ListUsersCall ev = false) (events (Run Scenario.stale_admin_id)).
Proof.
  pose (r := Scenario.stale_admin_id).
  pose (x1 := reconcileTenant r).
  opose proof* (admin_fetch_error_fails_the_run r Scenario.shown_tenant
                  (after x1) (events x1) porta_not_found (world (after x1))) as Hthm;
    [run_concrete ..|].
  destruct Hthm as (HRun & Hquiet).
  split; [|exact Hquiet].
  unfold r in HRun. rewrite HRun. reflexivity.
Defined.

(** C1 as stated fails: the status has no account id, and yet the run makes
    no creation call, because the password secret cannot be read. *)
Lemma no_creation_without_password :
  TenantStatus.TenantId (TenantCR.Status (tenantR Scenario.no_password_secret)) = 0
  ∧ result_of (Run Scenario.no_password_secret) = Err k8s_not_found
  ∧ Forall (λ ev, is_CreateTenantCall ev = false)
           (events (Run Scenario.no_password_secret)).
Proof. repeat split; run_concrete. Qed.

(** C2 as stated fails: the status has an admin id, the fetch of the user
    under it reports not found, listing the admins of the account would find
    the admin of the spec, and yet the run fails with the not-found error and
    never lists the users. *)
Lemma stale_admin_id_fails_the_run :
  let r := Scenario.stale_admin_id in
  let r1 := after (reconcileTenant r) in
  TenantStatus.AdminId (TenantCR.Status (tenantR r)) = 7
  ∧ result_of (portaClient_ReadUser 1 7 r1) = Err porta_not_found
  ∧ porta_IsNotFound porta_not_found = true
  ∧ result_of (findAdminUser Scenario.shown_tenant r1) = Ok Scenario.admin1
  ∧ result_of (Run r) = Err porta_not_found
  ∧ Forall (λ ev, is_ListUsersCall ev = false) (events (Run r)).
Proof. repeat split; run_concrete. Qed.

(** A second run after the first run of a new tenant only reads. *)
Lemma second_run_only_reads_witness :
  let r1 := after (Run Scenario.first_run) in
  result_of (Run r1) = Ok tt
  ∧ Forall (λ ev, is_write ev = false) (events (Run r1))
  ∧ world (after (Run r1)) = world r1
  ∧ TenantCR.Status (tenantR (after (Run r1))) = TenantCR.Status (tenantR r1).
Proof. apply (second_run_only_reads Scenario.first_run). run_concrete. Defined.

(** A new tenant with a readable password secret gets its account created
    with that password; when the lookup fails with an error that is not a
    not-found error, the run ends at the lookup. *)
Lemma account_created_when_missing_and_password_read_witness :
  Exists (λ ev, is_CreateTenantCall ev = true) (events (Run Scenario.first_run))
  ∧ CreateTenantCall "Example" "admin" "admin@example.com" "s3cret"
    ∈ events (Run Scenario.first_run)
  ∧ Run Scenario.remote_down
    = (Err Scenario.unavailable, Scenario.remote_down, [ShowTenantCall 1]).
Proof.
  pose proof (account_created_when_missing_and_password_read Scenario.first_run) as Hnew.
  pose proof (account_created_when_missing_and_password_read Scenario.remote_down) as Hdown.
  cbv zeta in Hnew, Hdown.
  destruct Hnew as (Hiff & _ & _). destruct Hdown as (_ & _ & Habort).
  split; [|split].
  - apply Hiff. split; [left; run_concrete|exists "s3cret"; run_concrete].
  - run_concrete.
  - apply (Habort Scenario.unavailable (world Scenario.remote_down)); run_concrete.
Defined.

(** The password reference names another namespace, and the secret is read
    in the namespace of the record. *)
Lemma password_read_in_the_namespace_of_the_record_witness :
  SecretReference.Namespace
    (TenantSpec.PasswordCredentialsRef (TenantCR.Spec (tenantR Scenario.first_run)))
  = "elsewhere"
  ∧ events (getAdminPassword Scenario.first_run)
    = [GetCall (NamespacedName.mk "admin-password" "tenants")]
  ∧ result_of (getAdminPassword Scenario.first_run) = Ok "s3cret".
Proof.
  pose proof (password_read_in_the_namespace_of_the_record Scenario.first_run) as Hthm.
  cbv zeta in Hthm. destruct Hthm as (Hcall & _ & _).
  split; [reflexivity|]. split; [exact Hcall|run_concrete].
Defined.

(** * Further properties of the methods *)

Section SecretStage.
Context {W : Type} `{!ThreeScaleClient W, !K8sClient W, !Package}.
Implicit Types r : InternalReconciler W.

(** Before the secret stage no call on applications or on the creation of
    the secret has been made, and the record is the one of the start. *)
Lemma before_secret_stage r tenantDef adminUserDef r1 t1 r2 t2 :
  reconcileTenant r = (Ok tenantDef, r1, t1) →
  reconcileAdminUser tenantDef r1 = (Ok adminUserDef, r2, t2) →
  tenantR r2 = tenantR r
  ∧ Forall (λ ev, is_CreateCall ev = false ∧ is_ListApplicationsCall ev = false)
           (t1 ++ t2).
Proof.
  intros H1 H2. split.
  - by destruct (admin_stage_of_run r tenantDef adminUserDef r1 t1 r2 t2 H1 H2).
  - pose proof (reconcileTenant_events r) as E1.
    pose proof (reconcileAdminUser_events tenantDef r1) as E2.
    rewrite H1 in E1. rewrite H2 in E2. unfold events in *; simpl in *.
    apply Forall_app. split.
    + eapply Forall_impl; [exact E1|]. by intros [].
    + eapply Forall_impl; [exact E2|]. by intros [].
Qed.

(** A run whose secret stage fails ends there. *)
Lemma Run_secret_stage_fails r tenantDef adminUserDef r1 t1 r2 t2 e r3 t3 :
  reconcileTenant r = (Ok tenantDef, r1, t1) →
  reconcileAdminUser tenantDef r1 = (Ok adminUserDef, r2, t2) →
  reconcileAccessTokenSecret tenantDef r2 = (Err e, r3, t3) →
  Run r = (Err e, r3, t1 ++ t2 ++ t3).
Proof. intros H1 H2 H3. by rewrite Run_stages, H1, H2, H3. Qed.

(** The secret stage, by the answer of the lookup. *)
Lemma reconcileAccessTokenSecret_lookup tenantDef r :
  reconcileAccessTokenSecret tenantDef r =
    match Get (tenantProviderKeySecretNN (tenantR r)) (world r) with
    | (Ok _, w3) =>
        (Ok tt, mkReconciler (tenantR r) w3,
         [GetCall (tenantProviderKeySecretNN (tenantR r));
          LogInfo "Admin user access token secret already exists"])
    | (Err e, w3) =>
        if k8s_IsNotFound e then
          let x := createTenantProviderKeySecret tenantDef
                     (tenantProviderKeySecretNN (tenantR r))
                     (mkReconciler (tenantR r) w3) in
          (result_of x, after x, GetCall (tenantProviderKeySecretNN (tenantR r)) :: events x)
        else
          (Err e, mkReconciler (tenantR r) w3,
           [GetCall (tenantProviderKeySecretNN (tenantR r))])
    end.
Proof.
  unfold reconcileAccessTokenSecret, findAccessTokenSecret, attempt, k8sClient_Get, call,
    logger_Info, read_tenantR, fail, mbind, M_bind, mret, M_ret. simpl.
  fold (tenantProviderKeySecretNN (tenantR r)).
  destruct (Get _ (world r)) as [[secret|e] w3]; simpl; [done|].
  destruct (k8s_IsNotFound e); simpl; [|done].
  by destruct (createTenantProviderKeySecret _ _ _) as [[? ?] ?].
Qed.

(** The creation of the secret, once the application list is there. *)
Lemma createTenantProviderKeySecret_listed tenantDef nn r appList w4 :
  ListApplications (Account.ID (account_of tenantDef)) (world r) = (Ok appList, w4) →
  createTenantProviderKeySecret tenantDef nn r =
    match ApplicationList.Applications appList with
    | [app] =>
        match URLFromDomain (Account.AdminDomain (account_of tenantDef)) with
        | Ok adminURL =>
            let secret :=
              addOwnerRefToObject
                (Secret.mk "v1" "Secret"
                   (NamespacedName.Namespace nn) (NamespacedName.Name nn)
                   (<["app" := "3scale-operator"]> ∅) [] ∅
                   (<[TenantProviderKeySecretField :=
                        Application.UserKey (ApplicationElem.Application app)]>
                      (<[TenantAdminDomainKeySecretField := URL_String adminURL]> ∅))
                   "Opaque")
                (asOwner (tenantR r)) in
            ((Create secret w4).1, mkReconciler (tenantR r) (Create secret w4).2,
             [LogInfo "Creating admin access token secret";
              ListApplicationsCall (Account.ID (account_of tenantDef));
              CreateCall secret])
        | Err e =>
            (Err e, mkReconciler (tenantR r) w4,
             [LogInfo "Creating admin access token secret";
              ListApplicationsCall (Account.ID (account_of tenantDef))])
        end
    | _ =>
        (Err (Errorf ("Unexpected application list. TenantId: "
                      +:+ fmt_d (Account.ID (account_of tenantDef)))),
         mkReconciler (tenantR r) w4,
         [LogInfo "Creating admin access token secret";
          ListApplicationsCall (Account.ID (account_of tenantDef))])
    end.
Proof.
  intros Hlist.
  unfold createTenantProviderKeySecret, findTenantProviderKey, portaClient_ListApplications,
    k8sClient_Create, call, logger_Info, read_tenantR, fail, mbind, M_bind, mret, M_ret.
  simpl. rewrite Hlist. simpl.
  destruct (ApplicationList.Applications appList) as [|app [|app' apps]]; simpl; try done.
  destruct (URLFromDomain _) as [adminURL|e]; simpl; [|done].
  by destruct (Create _ w4) as [[[]|e] w5].
Qed.

(** X1: in a run that finds the token secret, the secret stage is the
    lookup alone: the run lists no applications and makes no secret create
    call, whatever the secret holds. *)
Theorem existing_secret_is_left_alone
    r tenantDef adminUserDef r1 t1 r2 t2 secret w3 :
  reconcileTenant r = (Ok tenantDef, r1, t1) →
  reconcileAdminUser tenantDef r1 = (Ok adminUserDef, r2, t2) →
  Get (tenantProviderKeySecretNN (tenantR r)) (world r2) = (Ok secret, w3) →
  reconcileAccessTokenSecret tenantDef r2 =
    (Ok tt, mkReconciler (tenantR r) w3,
     [GetCall (tenantProviderKeySecretNN (tenantR r));
      LogInfo "Admin user access token secret already exists"])
  ∧ Forall (λ ev, is_CreateCall ev = false ∧ is_ListApplicationsCall ev = false)
           (events (Run r)).
Proof.
  intros H1 H2 Hget.
  destruct (before_secret_stage r tenantDef adminUserDef r1 t1 r2 t2 H1 H2)
    as (HtR & Hquiet).
  assert (H3 : reconcileAccessTokenSecret tenantDef r2 =
    (Ok tt, mkReconciler (tenantR r) w3,
     [GetCall (tenantProviderKeySecretNN (tenantR r));
      LogInfo "Admin user access token secret already exists"])).
  { by rewrite reconcileAccessTokenSecret_lookup, HtR, Hget. }
  split; [exact H3|].
  rewrite Run_stages, H1, H2, H3.
  pose proof (updateTenantStatus_events (getTenantStatus tenantDef adminUserDef)
                (mkReconciler (tenantR r) w3)) as E4.
  destruct (updateTenantStatus _ _) as [[y r4] t4].
  unfold events in *; simpl in *.
  rewrite app_assoc. apply Forall_app. split; [exact Hquiet|].
  do 2 (constructor; [done|]).
  eapply Forall_impl; [exact E4|]. by intros [].
Qed.

(** X2: an error of the lookup of the token secret that is not a not-found
    error ends the run with that error, right after the lookup: nothing is
    listed or created. *)
Theorem secret_lookup_error_fails_the_run
    r tenantDef adminUserDef r1 t1 r2 t2 e w3 :
  reconcileTenant r = (Ok tenantDef, r1, t1) →
  reconcileAdminUser tenantDef r1 = (Ok adminUserDef, r2, t2) →
  Get (tenantProviderKeySecretNN (tenantR r)) (world r2) = (Err e, w3) →
  k8s_IsNotFound e = false →
  Run r = (Err e, mkReconciler (tenantR r) w3,
           t1 ++ t2 ++ [GetCall (tenantProviderKeySecretNN (tenantR r))])
  ∧ Forall (λ ev, is_CreateCall ev = false ∧ is_ListApplicationsCall ev = false)
           (events (Run r)).
Proof.
  intros H1 H2 Hget Hnf.
  destruct (before_secret_stage r tenantDef adminUserDef r1 t1 r2 t2 H1 H2)
    as (HtR & Hquiet).
  assert (HRun : Run r = (Err e, mkReconciler (tenantR r) w3,
                          t1 ++ t2 ++ [GetCall (tenantProviderKeySecretNN (tenantR r))])).
  { apply (Run_secret_stage_fails r tenantDef adminUserDef r1 t1 r2 t2); try done.
    by rewrite reconcileAccessTokenSecret_lookup, HtR, Hget, Hnf. }
  split; [exact HRun|]. rewrite HRun. unfold events; simpl.
  rewrite app_assoc. apply Forall_app. split; [exact Hquiet|]. by repeat constructor.
Qed.

End SecretStage.

Section SecretCreation.
Context {W : Type} `{!ThreeScaleClient W, !K8sClient W, !Package}.
Implicit Types r : InternalReconciler W.

(** X3: in a run that does not find the token secret, gets one application
    and an admin URL for the domain of the account, one secret create call
    is made and the run goes on or fails as that call answers.  The secret
    has the namespace and name of the token secret reference, the label
    [app] of the operator, the key of the application under the provider key
    field, the admin URL under the admin domain field when the two field
    names differ, and the tenant resource as its only owner. *)
Theorem created_secret_holds_key_and_url
    r tenantDef adminUserDef r1 t1 r2 t2 e w3 appList app w4 adminURL :
  reconcileTenant r = (Ok tenantDef, r1, t1) →
  reconcileAdminUser tenantDef r1 = (Ok adminUserDef, r2, t2) →
  Get (tenantProviderKeySecretNN (tenantR r)) (world r2) = (Err e, w3) →
  k8s_IsNotFound e = true →
  ListApplications (Account.ID (account_of tenantDef)) w3 = (Ok appList, w4) →
  ApplicationList.Applications appList = [app] →
  URLFromDomain (Account.AdminDomain (account_of tenantDef)) = Ok adminURL →
  let secret :=
    tenantProviderKeySecret (tenantR r)
      (Application.UserKey (ApplicationElem.Application app)) (URL_String adminURL) in
  (∃ post,
     events (Run r) =
       (t1 ++ t2 ++ [GetCall (tenantProviderKeySecretNN (tenantR r));
                     LogInfo "Creating admin access token secret";
                     ListApplicationsCall (Account.ID (account_of tenantDef))])
       ++ CreateCall secret :: post
     ∧ Forall (λ ev, is_CreateCall ev = false)
              (t1 ++ t2 ++ [GetCall (tenantProviderKeySecretNN (tenantR r));
                            LogInfo "Creating admin access token secret";
                            ListApplicationsCall (Account.ID (account_of tenantDef))])
     ∧ Forall (λ ev, is_CreateCall ev = false) post)
  ∧ (∀ e' w5, Create secret w4 = (Err e', w5) → result_of (Run r) = Err e')
  ∧ Secret.Namespace secret
      = SecretReference.Namespace (TenantSpec.TenantSecretRef (TenantCR.Spec (tenantR r)))
  ∧ Secret.Name secret
      = SecretReference.Name (TenantSpec.TenantSecretRef (TenantCR.Spec (tenantR r)))
  ∧ Secret.Labels secret !! "app" = Some "3scale-operator"
  ∧ Secret.StringData secret !! TenantProviderKeySecretField
      = Some (Application.UserKey (ApplicationElem.Application app))
  ∧ (TenantProviderKeySecretField ≠ TenantAdminDomainKeySecretField →
       Secret.StringData secret !! TenantAdminDomainKeySecretField
         = Some (URL_String adminURL))
  ∧ Secret.OwnerReferences secret = [asOwner (tenantR r)].
Proof.
  intros H1 H2 Hget Hnf Hlist Happ Hurl secret.
  destruct (before_secret_stage r tenantDef adminUserDef r1 t1 r2 t2 H1 H2)
    as (HtR & Hquiet).
  assert (H3 : reconcileAccessTokenSecret tenantDef r2 =
    ((Create secret w4).1, mkReconciler (tenantR r) (Create secret w4).2,
     [GetCall (tenantProviderKeySecretNN (tenantR r));
      LogInfo "Creating admin access token secret";
      ListApplicationsCall (Account.ID (account_of tenantDef));
      CreateCall secret])).
  { rewrite reconcileAccessTokenSecret_lookup, HtR, Hget, Hnf. cbv zeta.
    rewrite (createTenantProviderKeySecret_listed _ _ _ appList w4) by done.
    by rewrite Happ, Hurl. }
  split; [|split].
  - rewrite Run_stages, H1, H2, H3.
    destruct (Create secret w4) as [[[]|e'] w5]; simpl.
    + pose proof (updateTenantStatus_events (getTenantStatus tenantDef adminUserDef)
                    (mkReconciler (tenantR r) w5)) as E4.
      destruct (updateTenantStatus _ _) as [[y r4] t4].
      unfold events in *; simpl in *. exists t4.
      split; [by rewrite <- !app_assoc|]. split.
      * rewrite app_assoc. apply Forall_app. split; [|by repeat constructor].
        eapply Forall_impl; [exact Hquiet|]. by intros ev [? _].
      * eapply Forall_impl; [exact E4|]. by intros [].
    + unfold events; simpl. exists [].
      split; [by rewrite <- !app_assoc|]. split; [|constructor].
      rewrite app_assoc. apply Forall_app. split; [|by repeat constructor].
      eapply Forall_impl; [exact Hquiet|]. by intros ev [? _].
  - intros e' w5 Hcreate.
    rewrite Run_stages, H1, H2, H3, Hcreate. reflexivity.
  - unfold secret, tenantProviderKeySecret, addOwnerRefToObject, tenantProviderKeySecretNN.
    simpl. repeat split; try done.
    + by rewrite lookup_insert_eq.
    + intros Hne. by rewrite lookup_insert_ne, lookup_insert_eq.
Qed.

(** X4: in a run that does not find the token secret and gets one
    application, an error of the admin URL of the domain of the account ends
    the run with that error after the application list call: no secret
    create call is made. *)
Theorem bad_admin_domain_creates_no_secret
    r tenantDef adminUserDef r1 t1 r2 t2 e w3 appList app w4 e' :
  reconcileTenant r = (Ok tenantDef, r1, t1) →
  reconcileAdminUser tenantDef r1 = (Ok adminUserDef, r2, t2) →
  Get (tenantProviderKeySecretNN (tenantR r)) (world r2) = (Err e, w3) →
  k8s_IsNotFound e = true →
  ListApplications (Account.ID (account_of tenantDef)) w3 = (Ok appList, w4) →
  ApplicationList.Applications appList = [app] →
  URLFromDomain (Account.AdminDomain (account_of tenantDef)) = Err e' →
  Run r =
    (Err e', mkReconciler (tenantR r) w4,
     t1 ++ t2 ++ [GetCall (tenantProviderKeySecretNN (tenantR r));
                  LogInfo "Creating admin access token secret";
                  ListApplicationsCall (Account.ID (account_of tenantDef))])
  ∧ Forall (λ ev, is_CreateCall ev = false) (events (Run r)).
Proof.
  intros H1 H2 Hget Hnf Hlist Happ Hurl.
  destruct (before_secret_stage r tenantDef adminUserDef r1 t1 r2 t2 H1 H2)
    as (HtR & Hquiet).
  assert (HRun : Run r =
    (Err e', mkReconciler (tenantR r) w4,
     t1 ++ t2 ++ [GetCall (tenantProviderKeySecretNN (tenantR r));
                  LogInfo "Creating admin access token secret";
                  ListApplicationsCall (Account.ID (account_of tenantDef))])).
  { apply (Run_secret_stage_fails r tenantDef adminUserDef r1 t1 r2 t2); try done.
    rewrite reconcileAccessTokenSecret_lookup, HtR, Hget, Hnf. cbv zeta.
    rewrite (createTenantProviderKeySecret_listed _ _ _ appList w4) by done.
    by rewrite Happ, Hurl. }
  split; [exact HRun|]. rewrite HRun. unfold events; simpl.
  rewrite app_assoc. apply Forall_app. split; [|by repeat constructor].
  eapply Forall_impl; [exact Hquiet|]. by intros ev [? _].
Qed.

End SecretCreation.

Section TenantStage.
Context {W : Type} `{!ThreeScaleClient W, !K8sClient W, !Package}.
Implicit Types r : InternalReconciler W.

Lemma fetchTenant_only_lookup r :
  Forall (λ ev, is_ShowTenantCall ev = true) (events (fetchTenant r)).
Proof. unfold_methods. repeat step_method; repeat constructor. Qed.

(** A run whose tenant stage fails ends there. *)
Lemma Run_tenant_stage_fails r e r1 t1 :
  reconcileTenant r = (Err e, r1, t1) → Run r = (Err e, r1, t1).
Proof. intros H1. by rewrite Run_stages, H1. Qed.

(** X5: when the account has to be created and the password secret is there
    but has no password field, the run fails with an error that names the
    namespace of the record, the name of the secret and the field, right
    after reading the secret: no account creation call is made. *)
Theorem missing_password_field_fails_creation r secret w2 :
  result_of (fetchTenant r) = Ok None →
  Get (tenantAdminSecretNN (tenantR r)) (world (after (fetchTenant r))) = (Ok secret, w2) →
  Secret.Data secret !! TenantAdminPasswordSecretField = None →
  Run r =
    (Err (Errorf ("Not found admin password secret (ns: "
                  +:+ TenantCR.Namespace (tenantR r) +:+ ", name: "
                  +:+ SecretReference.Name
                        (TenantSpec.PasswordCredentialsRef (TenantCR.Spec (tenantR r)))
                  +:+ ") attribute: " +:+ TenantAdminPasswordSecretField)),
     mkReconciler (tenantR r) w2,
     events (fetchTenant r) ++ [GetCall (tenantAdminSecretNN (tenantR r))])
  ∧ Forall (λ ev, is_CreateTenantCall ev = false) (events (Run r)).
Proof.
  intros Hnone Hget Hfield.
  pose proof (fetchTenant_tenantR r) as HtR.
  pose proof (fetchTenant_events r) as E.
  destruct (fetchTenant r) as [[x r0] t0] eqn:Hfetch.
  unfold result_of, after, events in *; simpl in *. subst x.
  assert (HRun : Run r =
    (Err (Errorf ("Not found admin password secret (ns: "
                  +:+ TenantCR.Namespace (tenantR r) +:+ ", name: "
                  +:+ SecretReference.Name
                        (TenantSpec.PasswordCredentialsRef (TenantCR.Spec (tenantR r)))
                  +:+ ") attribute: " +:+ TenantAdminPasswordSecretField)),
     mkReconciler (tenantR r) w2, t0 ++ [GetCall (tenantAdminSecretNN (tenantR r))])).
  { apply Run_tenant_stage_fails. unfold reconcileTenant.
    rewrite (bind_Ok _ _ _ _ _ _ Hfetch).
    unfold createTenant, getAdminPassword, k8sClient_Get, call, read_tenantR, fail,
      mbind, M_bind, mret, M_ret, result_of, after, events, tenantAdminSecretNN in *.
    simpl. rewrite HtR, Hget. simpl. by rewrite Hfield. }
  split; [exact HRun|]. rewrite HRun. simpl.
  apply Forall_app. split; [exact E|]. by repeat constructor.
Qed.

(** X6: a run that makes the account creation call makes no account update
    call: an account that was just created is not synced. *)
Theorem created_account_is_not_updated r :
  Exists (λ ev, is_CreateTenantCall ev = true) (events (Run r)) →
  Forall (λ ev, is_UpdateTenantCall ev = false) (events (Run r)).
Proof.
  rewrite Exists_exists. intros (ev & Hin & Hev).
  destruct (creation_call_of_run r ev Hin Hev) as (Hnone & password & Hpw & _).
  destruct (Run_events_tenant_stage r) as (rest & HRun & Hrest).
  rewrite HRun, reconcileTenant_creation, Hnone, Hpw.
  rewrite !Forall_app. repeat split.
  - eapply Forall_impl; [apply fetchTenant_only_lookup|]. by intros [].
  - by repeat constructor.
  - eapply Forall_impl; [exact Hrest|]. by intros [].
Qed.

(** X7: when the account found under the id of the status has drifted, the
    tenant stage makes the update call and, when that call succeeds, hands
    on the account of the lookup with the organization name and email of the
    spec written into it: its id and admin domain stay those of the lookup,
    and the account the update call answers with is not used.  When the
    update call fails, the run ends with its error. *)
Theorem synced_tenant_keeps_the_lookup_answer r tenantDef w1 :
  let tR := tenantR r in
  let id := TenantStatus.TenantId (TenantCR.Status tR) in
  id ≠ 0 →
  ShowTenant id (world r) = (Ok tenantDef, w1) →
  TenantSpec.OrganizationName (TenantCR.Spec tR) ≠ Account.OrgName (account_of tenantDef)
  ∨ TenantSpec.Email (TenantCR.Spec tR) ≠ Account.SupportEmail (account_of tenantDef) →
  reconcileTenant r =
    (match (UpdateTenant id (tenantSyncParams tR) w1).1 with
     | Ok _ => Ok (synced_tenantDef tR tenantDef)
     | Err e => Err e
     end,
     mkReconciler tR (UpdateTenant id (tenantSyncParams tR) w1).2,
     [ShowTenantCall id; LogInfo "Tenant already exists"; LogInfo "Syncing tenant";
      UpdateTenantCall id (tenantSyncParams tR)])
  ∧ Account.ID (account_of (synced_tenantDef tR tenantDef))
    = Account.ID (account_of tenantDef)
  ∧ Account.AdminDomain (account_of (synced_tenantDef tR tenantDef))
    = Account.AdminDomain (account_of tenantDef)
  ∧ (∀ e w2, UpdateTenant id (tenantSyncParams tR) w1 = (Err e, w2) →
       Run r = (Err e, mkReconciler tR w2,
                [ShowTenantCall id; LogInfo "Tenant already exists";
                 LogInfo "Syncing tenant"; UpdateTenantCall id (tenantSyncParams tR)])).
Proof.
  intros tR id Hid Hshow Hdrift%syncTenant_triggerSync_true.
  assert (Htenant : reconcileTenant r =
    (match (UpdateTenant id (tenantSyncParams tR) w1).1 with
     | Ok _ => Ok (synced_tenantDef tR tenantDef)
     | Err e => Err e
     end,
     mkReconciler tR (UpdateTenant id (tenantSyncParams tR) w1).2,
     [ShowTenantCall id; LogInfo "Tenant already exists"; LogInfo "Syncing tenant";
      UpdateTenantCall id (tenantSyncParams tR)])).
  { unfold reconcileTenant.
    assert (Hfetch : fetchTenant r =
                     (Ok (Some tenantDef), mkReconciler tR w1, [ShowTenantCall id])).
    { rewrite fetchTenant_lookup by done. fold tR id. by rewrite Hshow. }
    rewrite (bind_Ok _ _ _ _ _ _ Hfetch).
    unfold syncTenant, portaClient_UpdateTenant, call, logger_Info, read_tenantR,
      mbind, M_bind, mret, M_ret, result_of, after, events. simpl.
    fold tR in Hdrift. rewrite Hdrift. simpl.
    fold id. fold (tenantSyncParams tR).
    by destruct (UpdateTenant id (tenantSyncParams tR) w1) as [[answer|e] w2]. }
  split; [exact Htenant|]. split; [done|]. split; [done|].
  intros e w2 Hupdate. apply Run_tenant_stage_fails.
  by rewrite Htenant, Hupdate.
Qed.

End TenantStage.

Section AdminStage.
Context {W : Type} `{!ThreeScaleClient W, !K8sClient W, !Package}.
Implicit Types r : InternalReconciler W.

(** A run whose admin stage fails ends there. *)
Lemma Run_admin_stage_fails r tenantDef r1 t1 e r2 t2 :
  reconcileTenant r = (Ok tenantDef, r1, t1) →
  reconcileAdminUser tenantDef r1 = (Err e, r2, t2) →
  Run r = (Err e, r2, t1 ++ t2).
Proof. intros H1 H2. by rewrite Run_stages, H1, H2. Qed.

Lemma fetchAdminUser_tenantR tenantDef r :
  tenantR (after (fetchAdminUser tenantDef r)) = tenantR r.
Proof. unfold_methods. by repeat step_method. Qed.

Lemma syncAdminUser_triggerSync_true tR adminUser :
  syncAdminUser_triggerSync tR adminUser = true ↔
  TenantSpec.Username (TenantCR.Spec tR) ≠ User.UserName adminUser
  ∨ TenantSpec.Email (TenantCR.Spec tR) ≠ User.Email adminUser.
Proof.
  unfold syncAdminUser_triggerSync.
  repeat destruct (decide _); split; try done; tauto.
Qed.

(** The sync of the admin, once the first step (the activation of a pending
    user, or nothing) is over. *)
Lemma syncAdminUser_cases tenantDef adminUser r :
  let aid := Account.ID (account_of tenantDef) in
  let uid := User.ID adminUser in
  let first : Result unit * W * list Event :=
    if decide (User.State adminUser = "pending") then
      ((ActivateUser aid uid (world r)).1, (ActivateUser aid uid (world r)).2,
       [LogInfo "Activating pending admin user"; ActivateUserCall aid uid])
    else (Ok tt, world r, [LogInfo "Admin user already active"]) in
  syncAdminUser tenantDef adminUser r =
    match first.1.1 with
    | Err e => (Err e, mkReconciler (tenantR r) first.1.2, first.2)
    | Ok _ =>
        if syncAdminUser_triggerSync (tenantR r) adminUser then
          (match (UpdateUser aid uid (adminSyncParams (tenantR r)) first.1.2).1 with
           | Ok _ => Ok (User.mk uid (User.State adminUser)
                           (TenantSpec.Username (TenantCR.Spec (tenantR r)))
                           (TenantSpec.Email (TenantCR.Spec (tenantR r)))
                           (User.Role adminUser))
           | Err e => Err e
           end,
           mkReconciler (tenantR r)
             (UpdateUser aid uid (adminSyncParams (tenantR r)) first.1.2).2,
           first.2 ++ [LogInfo "Syncing adminUser";
                       UpdateUserCall aid uid (adminSyncParams (tenantR r))])
        else (Ok adminUser, mkReconciler (tenantR r) first.1.2, first.2)
    end.
Proof.
  intros aid uid first. unfold first.
  unfold syncAdminUser, activateAdminUser, portaClient_ActivateUser, portaClient_UpdateUser,
    call, logger_Info, read_tenantR, mbind, M_bind, mret, M_ret, adminSyncParams.
  simpl. fold aid uid.
  destruct (decide (User.State adminUser = "pending")) as [Hpending|Hnot]; simpl.
  - destruct (ActivateUser aid uid (world r)) as [[[]|e'] w3]; simpl; [|done].
    destruct (syncAdminUser_triggerSync (tenantR r) adminUser); simpl; [|done].
    by destruct (UpdateUser aid uid _ w3) as [[?|?] ?].
  - destruct (syncAdminUser_triggerSync (tenantR r) adminUser); simpl; [|by destruct r].
    by destruct (UpdateUser aid uid _ (world r)) as [[?|?] ?].
Qed.

(** The events of a run that resolves its admin. *)
Lemma Run_events_after_fetch r tenantDef r1 t1 adminUser r2 t2 :
  reconcileTenant r = (Ok tenantDef, r1, t1) →
  fetchAdminUser tenantDef r1 = (Ok adminUser, r2, t2) →
  tenantR r2 = tenantR r
  ∧ Forall (λ ev, is_UpdateUserCall ev = false) (t1 ++ t2)
  ∧ ∃ rest,
      events (Run r) = (t1 ++ t2) ++ events (syncAdminUser tenantDef adminUser r2) ++ rest
      ∧ Forall (λ ev, is_UpdateUserCall ev = false) rest.
Proof.
  intros H1 H2. split; [|split].
  - pose proof (reconcileTenant_tenantR r) as E1. rewrite H1 in E1.
    pose proof (fetchAdminUser_tenantR tenantDef r1) as E2. rewrite H2 in E2.
    unfold after in *; simpl in *. congruence.
  - pose proof (reconcileTenant_events r) as E1. rewrite H1 in E1.
    pose proof (fetchAdminUser_events tenantDef r1) as E2. rewrite H2 in E2.
    unfold events in *; simpl in *. apply Forall_app. split.
    + eapply Forall_impl; [exact E1|]. by intros [].
    + eapply Forall_impl; [exact E2|]. by intros ev [_ ?].
  - destruct (Run_events_after_tenant r tenantDef r1 t1 H1) as (rest & HRun & Hrest).
    exists rest. split.
    + rewrite HRun. unfold reconcileAdminUser. rewrite (bind_Ok _ _ _ _ _ _ H2).
      unfold events at 2; simpl. by rewrite <- !app_assoc.
    + eapply Forall_impl; [exact Hrest|]. by intros [].
Qed.

(** Without a difference in username or email the run makes no user update
    call. *)
Lemma Run_without_admin_drift r tenantDef r1 t1 adminUser r2 t2 :
  reconcileTenant r = (Ok tenantDef, r1, t1) →
  fetchAdminUser tenantDef r1 = (Ok adminUser, r2, t2) →
  TenantSpec.Username (TenantCR.Spec (tenantR r)) = User.UserName adminUser →
  TenantSpec.Email (TenantCR.Spec (tenantR r)) = User.Email adminUser →
  Forall (λ ev, is_UpdateUserCall ev = false) (events (Run r)).
Proof.
  intros H1 H2 Huser Hemail.
  destruct (Run_events_after_fetch r tenantDef r1 t1 adminUser r2 t2 H1 H2)
    as (HtR & Hpre & rest & HRun & Hrest).
  pose proof (syncAdminUser_cases tenantDef adminUser r2) as Hsync.
  cbv zeta in Hsync. rewrite HtR in Hsync.
  assert (Htrig : syncAdminUser_triggerSync (tenantR r) adminUser = false).
  { destruct (syncAdminUser_triggerSync (tenantR r) adminUser) eqn:E; [|done].
    apply syncAdminUser_triggerSync_true in E. by destruct E. }
  rewrite Htrig in Hsync. rewrite HRun, Hsync.
  rewrite !Forall_app. repeat split; try done.
  - by apply Forall_app in Hpre as [? _].
  - by apply Forall_app in Hpre as [_ ?].
  - destruct (decide (User.State adminUser = "pending")) as [Hpending|Hnot]; simpl.
    + destruct (ActivateUser _ _ (world r2)) as [[[]|e'] w3];
        unfold events; simpl; by repeat constructor.
    + unfold events; simpl. by repeat constructor.
Qed.

(** X8: in a run that resolves its admin, when neither the username nor the
    email of the spec differs from that of the user, no user update call is
    made; when one differs and the user is not pending or its activation
    succeeds, one user update call is made, on that user, and its parameters
    carry both the username and the email of the spec. *)
Theorem admin_updated_exactly_on_drift r tenantDef r1 t1 adminUser r2 t2 :
  reconcileTenant r = (Ok tenantDef, r1, t1) →
  fetchAdminUser tenantDef r1 = (Ok adminUser, r2, t2) →
  let tR := tenantR r in
  let aid := Account.ID (account_of tenantDef) in
  let uid := User.ID adminUser in
  (TenantSpec.Username (TenantCR.Spec tR) = User.UserName adminUser
   ∧ TenantSpec.Email (TenantCR.Spec tR) = User.Email adminUser →
     Forall (λ ev, is_UpdateUserCall ev = false) (events (Run r)))
  ∧ (TenantSpec.Username (TenantCR.Spec tR) ≠ User.UserName adminUser
     ∨ TenantSpec.Email (TenantCR.Spec tR) ≠ User.Email adminUser →
     (User.State adminUser = "pending" →
        ∃ w3, ActivateUser aid uid (world r2) = (Ok tt, w3)) →
     ∃ pre post,
       events (Run r) = pre ++ UpdateUserCall aid uid (adminSyncParams tR) :: post
       ∧ Forall (λ ev, is_UpdateUserCall ev = false) pre
       ∧ Forall (λ ev, is_UpdateUserCall ev = false) post)
  ∧ adminSyncParams tR !! "username" = Some (TenantSpec.Username (TenantCR.Spec tR))
  ∧ adminSyncParams tR !! "email" = Some (TenantSpec.Email (TenantCR.Spec tR)).
Proof.
  intros H1 H2 tR aid uid.
  destruct (Run_events_after_fetch r tenantDef r1 t1 adminUser r2 t2 H1 H2)
    as (HtR & Hpre & rest & HRun & Hrest).
  pose proof (syncAdminUser_cases tenantDef adminUser r2) as Hsync.
  cbv zeta in Hsync. rewrite HtR in Hsync. fold tR aid uid in Hsync.
  split; [|split; [|split]].
  - intros [Huser Hemail].
    by apply (Run_without_admin_drift r tenantDef r1 t1 adminUser r2 t2).
  - intros Hdrift%syncAdminUser_triggerSync_true Hactive.
    fold tR in Hdrift. rewrite Hdrift in Hsync.
    destruct (decide (User.State adminUser = "pending")) as [Hpending|Hnot];
      simpl in Hsync.
    + destruct (Hactive Hpending) as (w3 & Hact). rewrite Hact in Hsync. simpl in Hsync.
      exists ((t1 ++ t2) ++ [LogInfo "Activating pending admin user";
                            ActivateUserCall aid uid; LogInfo "Syncing adminUser"]), rest.
      rewrite HRun, Hsync. unfold events; simpl.
      split; [by rewrite <- !app_assoc|]. split; [|done].
      apply Forall_app. split; [done|by repeat constructor].
    + exists ((t1 ++ t2) ++ [LogInfo "Admin user already active";
                            LogInfo "Syncing adminUser"]), rest.
      rewrite HRun, Hsync. unfold events; simpl.
      split; [by rewrite <- !app_assoc|]. split; [|done].
      apply Forall_app. split; [done|by repeat constructor].
  - unfold adminSyncParams. by simplify_map_eq.
  - unfold adminSyncParams. by simplify_map_eq.
Qed.

(** X9: in a run whose record has no admin id in its status, the admin the
    listing resolves has the email and the username of the spec, so the run
    makes no user update call. *)
Theorem admin_found_by_listing_is_not_updated r tenantDef r1 t1 adminUser r2 t2 :
  reconcileTenant r = (Ok tenantDef, r1, t1) →
  TenantStatus.AdminId (TenantCR.Status (tenantR r)) = 0 →
  fetchAdminUser tenantDef r1 = (Ok adminUser, r2, t2) →
  is_desired_admin (tenantR r) adminUser
  ∧ Forall (λ ev, is_UpdateUserCall ev = false) (events (Run r)).
Proof.
  intros H1 Hzero H2.
  assert (HtR : tenantR r1 = tenantR r).
  { pose proof (reconcileTenant_tenantR r) as E1. by rewrite H1 in E1. }
  assert (Hdesired : is_desired_admin (tenantR r) adminUser).
  { revert H2.
    unfold fetchAdminUser, findAdminUser, portaClient_ListUsers, call, read_tenantR, fail,
      mbind, M_bind, mret, M_ret.
    simpl. rewrite HtR, decide_True by done.
    destruct (ListUsers _ _ (world r1)) as [[userList|e] w2]; simpl; [|done].
    rewrite HtR.
    destruct (findAdminUser_scan (tenantR r) (UserList.Users userList)) as [user|] eqn:Hscan;
      simpl; [|done].
    intros [= <- _ _].
    by apply findAdminUser_scan_Some in Hscan as (_ & _ & _ & _ & _ & Hd & _). }
  split; [exact Hdesired|].
  destruct Hdesired as [Hemail Huser].
  by apply (Run_without_admin_drift r tenantDef r1 t1 adminUser r2 t2).
Qed.

(** X10: in a run that resolves a pending admin, an error of the activation
    call ends the run with that error right after that call: no user update
    call is made, even when the username or email differs. *)
Theorem activation_error_fails_the_run r tenantDef r1 t1 adminUser r2 t2 e w3 :
  reconcileTenant r = (Ok tenantDef, r1, t1) →
  fetchAdminUser tenantDef r1 = (Ok adminUser, r2, t2) →
  User.State adminUser = "pending" →
  ActivateUser (Account.ID (account_of tenantDef)) (User.ID adminUser) (world r2)
    = (Err e, w3) →
  Run r =
    (Err e, mkReconciler (tenantR r) w3,
     t1 ++ t2 ++ [LogInfo "Activating pending admin user";
                  ActivateUserCall (Account.ID (account_of tenantDef)) (User.ID adminUser)])
  ∧ Forall (λ ev, is_UpdateUserCall ev = false) (events (Run r)).
Proof.
  intros H1 H2 Hpending Hact.
  destruct (Run_events_after_fetch r tenantDef r1 t1 adminUser r2 t2 H1 H2)
    as (HtR & Hpre & _).
  pose proof (syncAdminUser_cases tenantDef adminUser r2) as Hsync.
  cbv zeta in Hsync. rewrite HtR, decide_True, Hact in Hsync by done. simpl in Hsync.
  assert (HRun : Run r =
    (Err e, mkReconciler (tenantR r) w3,
     t1 ++ t2 ++ [LogInfo "Activating pending admin user";
                  ActivateUserCall (Account.ID (account_of tenantDef)) (User.ID adminUser)])).
  { apply (Run_admin_stage_fails r tenantDef r1 t1); [exact H1|].
    unfold reconcileAdminUser. rewrite (bind_Ok _ _ _ _ _ _ H2), Hsync. reflexivity. }
  split; [exact HRun|]. rewrite HRun. unfold events; simpl.
  rewrite app_assoc. apply Forall_app. split; [exact Hpre|by repeat constructor].
Qed.

(** X11: in a run whose record has no admin id in its status, an error of
    the call that lists the users ends the run with that error right after
    that call. *)
Theorem listing_error_fails_the_run r tenantDef r1 t1 e w2 :
  reconcileTenant r = (Ok tenantDef, r1, t1) →
  TenantStatus.AdminId (TenantCR.Status (tenantR r)) = 0 →
  ListUsers (Account.ID (account_of tenantDef)) adminFilterParams (world r1) = (Err e, w2) →
  Run r =
    (Err e, mkReconciler (tenantR r) w2,
     t1 ++ [ListUsersCall (Account.ID (account_of tenantDef)) adminFilterParams]).
Proof.
  intros H1 Hzero Hlist.
  assert (HtR : tenantR r1 = tenantR r).
  { pose proof (reconcileTenant_tenantR r) as E1. by rewrite H1 in E1. }
  apply (Run_admin_stage_fails r tenantDef r1 t1); [exact H1|].
  unfold reconcileAdminUser, fetchAdminUser, findAdminUser, portaClient_ListUsers, call,
    read_tenantR, fail, mbind, M_bind, mret, M_ret.
  simpl. rewrite HtR, decide_True by done.
  fold adminFilterParams. rewrite Hlist. simpl. by rewrite HtR.
Qed.

End AdminStage.

(** ** The record and the status update call *)

Lemma split_at_the_only (kind : Event → bool) (A : list Event) x pre ev post :
  Forall (λ e, kind e = false) A →
  A ++ [x] = pre ++ ev :: post → kind ev = true →
  pre = A ∧ ev = x ∧ post = [].
Proof.
  intros HA. revert pre. induction HA as [|a A Ha _ IH]; intros pre Hsplit Hev.
  - destruct pre as [|p0 pre]; simpl in Hsplit.
    + by injection Hsplit as <- <-.
    + injection Hsplit as _ Hsplit. by destruct pre.
  - destruct pre as [|p0 pre]; simpl in Hsplit.
    + injection Hsplit as -> _. congruence.
    + injection Hsplit as <- Hsplit.
      destruct (IH pre Hsplit Hev) as (-> & -> & ->). done.
Qed.

Lemma not_in_the_quiet (kind : Event → bool) (A : list Event) pre ev post :
  Forall (λ e, kind e = false) A → A = pre ++ ev :: post → kind ev = true → False.
Proof.
  intros HA -> Hev. apply Forall_app in HA as [_ HA].
  apply Forall_cons in HA as [HA _]. congruence.
Qed.

Section RecordAndStatus.
Context {W : Type} `{!ThreeScaleClient W, !K8sClient W, !Package}.
Implicit Types r : InternalReconciler W.

(** X12: a run changes nothing of the tenant resource it holds but its
    status: namespace, name and spec are as before, on success and on
    failure; and when the status is another one after the run, the last
    event of the run is the status update call, made with the resource as
    the reconciler holds it after the run. *)
Theorem run_changes_only_the_status r :
  TenantCR.Namespace (tenantR (after (Run r))) = TenantCR.Namespace (tenantR r)
  ∧ TenantCR.Name (tenantR (after (Run r))) = TenantCR.Name (tenantR r)
  ∧ TenantCR.Spec (tenantR (after (Run r))) = TenantCR.Spec (tenantR r)
  ∧ (TenantCR.Status (tenantR (after (Run r))) ≠ TenantCR.Status (tenantR r) →
       ∃ pre, events (Run r) = pre ++ [StatusUpdateCall (tenantR (after (Run r)))]).
Proof.
  rewrite Run_stages.
  pose proof (reconcileTenant_tenantR r) as E1.
  destruct (reconcileTenant r) as [[[tenantDef|e] r1] t1];
    unfold after in *; simpl in *; [|by rewrite E1].
  pose proof (reconcileAdminUser_tenantR tenantDef r1) as E2.
  destruct (reconcileAdminUser tenantDef r1) as [[[adminUserDef|e] r2] t2];
    unfold after in *; simpl in *; [|by rewrite E2, E1].
  pose proof (reconcileAccessTokenSecret_tenantR tenantDef r2) as E3.
  destruct (reconcileAccessTokenSecret tenantDef r2) as [[[[]|e] r3] t3];
    unfold after in *; simpl in *; [|by rewrite E3, E2, E1].
  assert (HtR : tenantR r3 = tenantR r) by congruence.
  destruct (decide (TenantCR.Status (tenantR r3) = getTenantStatus tenantDef adminUserDef))
    as [Heq|Hne].
  - rewrite updateTenantStatus_equal by done. simpl. by rewrite HtR.
  - rewrite updateTenantStatus_differs by done. simpl. rewrite HtR.
    repeat split; try done. intros _.
    exists (t1 ++ t2 ++ t3 ++ [LogInfo "update tenant status"]).
    unfold events; simpl. by rewrite <- !app_assoc.
Qed.

(** X13: a status update call is the last event of its run, it is made only
    when the tenant, admin and secret stages have succeeded, and it carries
    the record with the ids of the account and the admin of these stages as
    its status. *)
Theorem status_update_is_the_last_call r pre ev post :
  events (Run r) = pre ++ ev :: post →
  is_StatusUpdateCall ev = true →
  post = []
  ∧ ∃ tenantDef r1 t1 adminUserDef r2 t2 r3 t3,
      reconcileTenant r = (Ok tenantDef, r1, t1)
      ∧ reconcileAdminUser tenantDef r1 = (Ok adminUserDef, r2, t2)
      ∧ reconcileAccessTokenSecret tenantDef r2 = (Ok tt, r3, t3)
      ∧ ev = StatusUpdateCall
               (TenantCR.with_Status (getTenantStatus tenantDef adminUserDef) (tenantR r)).
Proof.
  rewrite Run_stages. intros Hsplit Hev.
  pose proof (reconcileTenant_events r) as E1.
  destruct (reconcileTenant r) as [[[tenantDef|e] r1] t1] eqn:H1;
    unfold events in *; simpl in *.
  2: { exfalso. eapply (not_in_the_quiet is_StatusUpdateCall t1); [|exact Hsplit|exact Hev].
       eapply Forall_impl; [exact E1|]. by intros []. }
  pose proof (reconcileAdminUser_events tenantDef r1) as E2.
  destruct (reconcileAdminUser tenantDef r1) as [[[adminUserDef|e] r2] t2] eqn:H2;
    unfold events in *; simpl in *.
  2: { exfalso.
       eapply (not_in_the_quiet is_StatusUpdateCall (t1 ++ t2)); [|exact Hsplit|exact Hev].
       apply Forall_app. split.
       - eapply Forall_impl; [exact E1|]. by intros [].
       - eapply Forall_impl; [exact E2|]. by intros []. }
  pose proof (reconcileAccessTokenSecret_events tenantDef r2) as E3.
  destruct (reconcileAccessTokenSecret tenantDef r2) as [[[[]|e] r3] t3] eqn:H3;
    unfold events in *; simpl in *.
  2: { exfalso.
       eapply (not_in_the_quiet is_StatusUpdateCall (t1 ++ t2 ++ t3));
         [|exact Hsplit|exact Hev].
       rewrite !Forall_app. repeat split.
       - eapply Forall_impl; [exact E1|]. by intros [].
       - eapply Forall_impl; [exact E2|]. by intros [].
       - eapply Forall_impl; [exact E3|]. by intros []. }
  destruct (status_stage_of_run r tenantDef adminUserDef r1 t1 r2 t2 r3 t3 H1 H2 H3)
    as (HtR & Hquiet).
  destruct (decide (TenantCR.Status (tenantR r3) = getTenantStatus tenantDef adminUserDef))
    as [Heq|Hne].
  - rewrite updateTenantStatus_equal in Hsplit by done. simpl in Hsplit.
    exfalso.
    eapply (not_in_the_quiet is_StatusUpdateCall (t1 ++ t2 ++ t3));
      [exact Hquiet| |exact Hev].
    by rewrite app_nil_r in Hsplit.
  - rewrite updateTenantStatus_differs in Hsplit by done. simpl in Hsplit.
    rewrite HtR in Hsplit.
    destruct (split_at_the_only is_StatusUpdateCall
                (t1 ++ t2 ++ t3 ++ [LogInfo "update tenant status"])
                (StatusUpdateCall
                   (TenantCR.with_Status (getTenantStatus tenantDef adminUserDef) (tenantR r)))
                pre ev post) as (_ & -> & ->); [| |exact Hev|].
    + rewrite !app_assoc. apply Forall_app. split; [|by repeat constructor].
      by rewrite <- !app_assoc.
    + by rewrite <- Hsplit, <- !app_assoc.
    + split; [done|]. by exists tenantDef, r1, t1, adminUserDef, r2, t2, r3, t3.
Qed.

(** X14: after a status update, successful or failed, the record holds the
    status that was to be written, so a second update with the same status
    on the same reconciler makes no call and returns success: a failed
    status write is not made again from the same record. *)
Theorem status_update_is_not_made_twice st r :
  TenantCR.Status (tenantR (after (updateTenantStatus st r))) = st
  ∧ updateTenantStatus st (after (updateTenantStatus st r))
    = (Ok tt, after (updateTenantStatus st r), []).
Proof.
  assert (Hst : TenantCR.Status (tenantR (after (updateTenantStatus st r))) = st).
  { destruct (decide (TenantCR.Status (tenantR r) = st)) as [Heq|Hne].
    - by rewrite updateTenantStatus_equal.
    - by rewrite updateTenantStatus_differs. }
  split; [exact Hst|]. by apply updateTenantStatus_equal.
Qed.

End RecordAndStatus.

(** ** How often a run calls *)

Lemma count_events_app kind (t1 t2 : list Event) :
  count_events kind (t1 ++ t2) = (count_events kind t1 + count_events kind t2)%nat.
Proof. unfold count_events. by rewrite List.filter_app, List.length_app. Qed.

Section Counts.
Context {W : Type} `{!ThreeScaleClient W, !K8sClient W, !Package}.
Implicit Types r : InternalReconciler W.

Ltac count_kinds :=
  repeat (constructor; [simpl; lia|]); constructor.

Ltac count_stage :=
  unfold stage_counts, single_call_kinds, count_events;
  unfold_methods; unfold syncTenant_triggerSync, syncAdminUser_triggerSync;
  repeat step_method; simpl; (split; [count_kinds|lia]).

Lemma reconcileTenant_counts r :
  stage_counts (events (reconcileTenant r)) [1; 1; 1; 0; 0; 0; 0; 0; 0; 0]%nat.
Proof. count_stage. Qed.

Lemma reconcileAdminUser_counts tenantDef r :
  stage_counts (events (reconcileAdminUser tenantDef r)) [0; 0; 0; 1; 1; 1; 1; 0; 0; 0]%nat
  ∧ count_events is_GetCall (events (reconcileAdminUser tenantDef r)) = 0%nat
  ∧ (count_events is_ListUsersCall (events (reconcileAdminUser tenantDef r))
     + count_events is_ReadUserCall (events (reconcileAdminUser tenantDef r)) ≤ 1)%nat.
Proof.
  unfold stage_counts, single_call_kinds, count_events.
  unfold_methods. unfold syncAdminUser_triggerSync.
  repeat step_method; simpl; (split; [split; [count_kinds|lia]|split; lia]).
Qed.

Lemma reconcileAccessTokenSecret_counts tenantDef r :
  stage_counts (events (reconcileAccessTokenSecret tenantDef r))
               [0; 0; 0; 0; 0; 0; 0; 1; 1; 0]%nat.
Proof. count_stage. Qed.

Lemma updateTenantStatus_counts st r :
  stage_counts (events (updateTenantStatus st r)) [0; 0; 0; 0; 0; 0; 0; 0; 0; 1]%nat
  ∧ count_events is_GetCall (events (updateTenantStatus st r)) = 0%nat.
Proof.
  unfold stage_counts, single_call_kinds, count_events.
  unfold_methods.
  repeat step_method; simpl; (split; [split; [count_kinds|lia]|lia]).
Qed.

Ltac split_counts :=
  repeat match goal with
  | H : _ ∧ _ |- _ => destruct H as [H ?]
  | H : Forall2 _ (_ :: _) (_ :: _) |- _ => apply Forall2_cons_1 in H as [? H]
  end.

(** X15: a run makes each call on the remote at most once, and the secret
    create call and the status update call at most once; it reads at most
    two secrets; and it resolves the admin either by listing the users or by
    reading the user, not both. *)
Theorem run_makes_each_call_at_most_once r :
  Forall (λ kind, (count_events kind (events (Run r)) ≤ 1)%nat) single_call_kinds
  ∧ (count_events is_GetCall (events (Run r)) ≤ 2)%nat
  ∧ (count_events is_ListUsersCall (events (Run r))
     + count_events is_ReadUserCall (events (Run r)) ≤ 1)%nat.
Proof.
  rewrite Run_stages.
  pose proof (reconcileTenant_counts r) as C1.
  destruct (reconcileTenant r) as [[[tenantDef|e] r1] t1];
    unfold events in *; simpl in *.
  2: { unfold stage_counts, single_call_kinds in *. split_counts.
       split; [repeat (constructor; [lia|]); constructor|lia]. }
  pose proof (reconcileAdminUser_counts tenantDef r1) as (C2 & G2 & L2).
  destruct (reconcileAdminUser tenantDef r1) as [[[adminUserDef|e] r2] t2];
    unfold events in *; simpl in *.
  2: { unfold stage_counts, single_call_kinds in *. split_counts.
       rewrite !count_events_app.
       split; [repeat (constructor; [rewrite !count_events_app; lia|]); constructor|lia]. }
  pose proof (reconcileAccessTokenSecret_counts tenantDef r2) as C3.
  destruct (reconcileAccessTokenSecret tenantDef r2) as [[[[]|e] r3] t3];
    unfold events in *; simpl in *.
  2: { unfold stage_counts, single_call_kinds in *. split_counts.
       rewrite !count_events_app.
       split; [repeat (constructor; [rewrite !count_events_app; lia|]); constructor|lia]. }
  pose proof (updateTenantStatus_counts (getTenantStatus tenantDef adminUserDef) r3)
    as (C4 & G4).
  destruct (updateTenantStatus _ r3) as [[y r4] t4];
    unfold events in *; simpl in *.
  unfold stage_counts, single_call_kinds in *. split_counts.
  rewrite !count_events_app.
  split; [repeat (constructor; [rewrite !count_events_app; lia|]); constructor|lia].
Qed.

End Counts.

(** ** What every call of a run is made on *)

Section CallTargets.
Context {W : Type} `{!ThreeScaleClient W, !K8sClient W, !Package}.
Implicit Types r : InternalReconciler W.

(** A property of events that holds of each stage holds of the run. *)
Lemma Run_events_Forall (P : Event → Prop) r :
  Forall P (events (reconcileTenant r)) →
  (∀ tenantDef r1 t1 r', reconcileTenant r = (Ok tenantDef, r1, t1) →
     Forall P (events (reconcileAdminUser tenantDef r'))
     ∧ Forall P (events (reconcileAccessTokenSecret tenantDef r'))) →
  (∀ st r', Forall P (events (updateTenantStatus st r'))) →
  Forall P (events (Run r)).
Proof.
  intros P1 P23 P4. rewrite Run_stages.
  destruct (reconcileTenant r) as [[[tenantDef|e] r1] t1] eqn:H1;
    unfold events in *; simpl in *; [|done].
  pose proof (proj1 (P23 tenantDef r1 t1 r1 eq_refl)) as P2.
  destruct (reconcileAdminUser tenantDef r1) as [[[adminUserDef|e] r2] t2];
    simpl in *; [|by apply Forall_app].
  pose proof (proj2 (P23 tenantDef r1 t1 r2 eq_refl)) as P3.
  destruct (reconcileAccessTokenSecret tenantDef r2) as [[[[]|e] r3] t3];
    simpl in *; [|by rewrite !Forall_app].
  pose proof (P4 (getTenantStatus tenantDef adminUserDef) r3) as P4'.
  destruct (updateTenantStatus _ r3) as [[y r4] t4]; simpl in *.
  by rewrite !Forall_app.
Qed.

(** X16: in a run whose tenant stage passes, every call on users and on
    applications is made on the account that stage handed on: after a stale
    account id in the status, these calls go to the account that was
    created, not to the id of the status. *)
Theorem calls_are_on_the_account_of_the_run r tenantDef r1 t1 :
  reconcileTenant r = (Ok tenantDef, r1, t1) →
  Forall (λ ev, ∀ accountID, event_account ev = Some accountID →
                accountID = Account.ID (account_of tenantDef))
         (events (Run r)).
Proof.
  intros H1. apply Run_events_Forall.
  - eapply Forall_impl; [apply reconcileTenant_events|]. by intros [].
  - intros tenantDef' r1' t1' r' H1'. rewrite H1 in H1'. injection H1' as <- _ _.
    split.
    + unfold_methods. unfold syncAdminUser_triggerSync.
      repeat step_method;
        repeat (constructor; [first [by intros ? [=] | by intros ? [= <-]]|]);
        constructor.
    + unfold_methods.
      repeat step_method;
        repeat (constructor; [first [by intros ? [=] | by intros ? [= <-]]|]);
        constructor.
  - intros st r'. eapply Forall_impl; [apply updateTenantStatus_events|]. by intros [].
Qed.

(** X17: a run never looks anything up under the id zero: the account is
    looked up only under a nonzero account id of the status, and the user is
    read only under a nonzero admin id of the status. *)
Theorem run_never_looks_up_id_zero r :
  Forall (λ ev, event_lookup_id ev ≠ Some 0) (events (Run r)).
Proof.
  apply Run_events_Forall.
  - unfold_methods. unfold syncTenant_triggerSync.
    repeat step_method;
      repeat (constructor; [first [by intros [=] | intros [=]; congruence]|]);
      constructor.
  - intros tenantDef r1 t1 r' _. split.
    + unfold_methods. unfold syncAdminUser_triggerSync.
      repeat step_method;
        repeat (constructor; [first [by intros [=] | intros [=]; congruence]|]);
        constructor.
    + eapply Forall_impl; [apply reconcileAccessTokenSecret_events|]. by intros [].
  - intros st r'. eapply Forall_impl; [apply updateTenantStatus_events|]. by intros [].
Qed.

(** X18: for any remote and cluster, when the account looked up under the
    account id of the status has that id and the organization name and email
    of the spec, the user read under the admin id of the status has that id,
    is not pending and has the username and email of the spec, and the token
    secret is found, the run succeeds with these three reads and a log line
    after each: it makes no write call and leaves the record as it is. *)
Theorem in_sync_run_only_reads r tenantDef w1 adminUser w2 secret w3 :
  let tR := tenantR r in
  let id := TenantStatus.TenantId (TenantCR.Status tR) in
  let adminId := TenantStatus.AdminId (TenantCR.Status tR) in
  id ≠ 0 →
  ShowTenant id (world r) = (Ok tenantDef, w1) →
  Account.ID (account_of tenantDef) = id →
  TenantSpec.OrganizationName (TenantCR.Spec tR) = Account.OrgName (account_of tenantDef) →
  TenantSpec.Email (TenantCR.Spec tR) = Account.SupportEmail (account_of tenantDef) →
  adminId ≠ 0 →
  ReadUser id adminId w1 = (Ok adminUser, w2) →
  User.ID adminUser = adminId →
  User.State adminUser ≠ "pending" →
  TenantSpec.Username (TenantCR.Spec tR) = User.UserName adminUser →
  TenantSpec.Email (TenantCR.Spec tR) = User.Email adminUser →
  Get (tenantProviderKeySecretNN tR) w2 = (Ok secret, w3) →
  Run r = (Ok tt, mkReconciler tR w3, in_sync_events tR)
  ∧ Forall (λ ev, is_write ev = false) (events (Run r))
  ∧ tenantR (after (Run r)) = tR.
Proof.
  intros tR id adminId Hid Hshow HID Horg Hemail Haid Hread HUID Hstate Huser Huemail Hget.
  rewrite (Run_in_sync r tenantDef w1 adminUser w2 secret w3) by done.
  split; [done|]. split; [|done].
  unfold events, in_sync_events; simpl. by repeat constructor.
Qed.

End CallTargets.

(** ** The further properties at concrete runs *)

(** The token secret of a synced tenant is found and left alone. *)
Lemma existing_secret_is_left_alone_witness :
  Forall (λ ev, is_CreateCall ev = false ∧ is_ListApplicationsCall ev = false)
         (events (Run Cases.synced)).
Proof.
  pose (r := Cases.synced).
  pose (x1 := reconcileTenant r).
  pose (x2 := reconcileAdminUser Scenario.shown_tenant (after x1)).
  opose proof* (existing_secret_is_left_alone r Scenario.shown_tenant Scenario.admin1
                  (after x1) (events x1) (after x2) (events x2)
                  Scenario.token_secret (world (after x2))) as Hthm;
    [run_concrete ..|].
  exact (proj2 Hthm).
Defined.

(** The cluster refuses to read the token secret: the run ends there. *)
Lemma secret_lookup_error_fails_the_run_witness :
  result_of (Run Cases.secrets_forbidden) = Err Cases.forbidden.
Proof.
  pose (r := Cases.secrets_forbidden).
  pose (x1 := reconcileTenant r).
  pose (x2 := reconcileAdminUser Scenario.shown_tenant (after x1)).
  opose proof* (secret_lookup_error_fails_the_run r Scenario.shown_tenant Scenario.admin1
                  (after x1) (events x1) (after x2) (events x2)
                  Cases.forbidden (world (after x2))) as Hthm;
    [run_concrete ..|].
  destruct Hthm as (HRun & _). unfold r in HRun. by rewrite HRun.
Defined.

(** The token secret is missing: it is created with the key of the one
    application and the admin URL of the account. *)
Lemma created_secret_holds_key_and_url_witness :
  ∃ pre secret post,
    events (Run Cases.no_token_secret) = pre ++ CreateCall secret :: post
    ∧ Secret.StringData secret !! "token" = Some "provider-key"
    ∧ Secret.StringData secret !! "adminURL" = Some "https://example-admin.example.com"
    ∧ Secret.Namespace secret = "operators" ∧ Secret.Name secret = "tenant-token".
Proof.
  pose (r := Cases.no_token_secret).
  pose (x1 := reconcileTenant r).
  pose (x2 := reconcileAdminUser Scenario.shown_tenant (after x1)).
  opose proof* (created_secret_holds_key_and_url r Scenario.shown_tenant Scenario.admin1
                  (after x1) (events x1) (after x2) (events x2)
                  k8s_not_found (world (after x2))
                  (ApplicationList.mk [ApplicationElem.mk (Application.mk "provider-key")])
                  (ApplicationElem.mk (Application.mk "provider-key"))
                  (world (after x2)) "https://example-admin.example.com") as Hthm;
    [run_concrete ..|].
  cbv zeta in Hthm.
  destruct Hthm as ((post & HRun & _) & _ & Hns & Hname & _ & Hkey & Hurl & _).
  eexists _, _, post. split; [exact HRun|].
  split; [exact Hkey|]. split; [apply Hurl; run_concrete|]. by split.
Defined.

(** The account has no admin domain: no secret is created. *)
Lemma bad_admin_domain_creates_no_secret_witness :
  result_of (Run Cases.no_admin_domain) = Err (Errorf "empty admin domain")
  ∧ Forall (λ ev, is_CreateCall ev = false) (events (Run Cases.no_admin_domain)).
Proof.
  pose (r := Cases.no_admin_domain).
  pose (x1 := reconcileTenant r).
  pose (x2 := reconcileAdminUser (Tenant.mk (Signup.mk Cases.no_domain_account)) (after x1)).
  opose proof* (bad_admin_domain_creates_no_secret r
                  (Tenant.mk (Signup.mk Cases.no_domain_account)) Scenario.admin1
                  (after x1) (events x1) (after x2) (events x2)
                  k8s_not_found (world (after x2))
                  (ApplicationList.mk [ApplicationElem.mk (Application.mk "provider-key")])
                  (ApplicationElem.mk (Application.mk "provider-key"))
                  (world (after x2)) (Errorf "empty admin domain")) as Hthm;
    [run_concrete ..|].
  destruct Hthm as (HRun & Hquiet). split; [|exact Hquiet].
  unfold r in HRun. by rewrite HRun.
Defined.

(** The password secret has no password field: no account is created. *)
Lemma missing_password_field_fails_creation_witness :
  result_of (Run Cases.no_password_field)
    = Err (Errorf ("Not found admin password secret (ns: tenants, name: admin-password)"
                   +:+ " attribute: admin_password"))
  ∧ Forall (λ ev, is_CreateTenantCall ev = false) (events (Run Cases.no_password_field)).
Proof.
  pose (r := Cases.no_password_field).
  opose proof* (missing_password_field_fails_creation r Cases.empty_password_secret
                  (world r)) as Hthm;
    [run_concrete ..|].
  destruct Hthm as (HRun & Hquiet). split; [|exact Hquiet].
  unfold r in HRun. rewrite HRun. run_concrete.
Defined.

(** The first run creates the account and does not update it. *)
Lemma created_account_is_not_updated_witness :
  Forall (λ ev, is_UpdateTenantCall ev = false) (events (Run Scenario.first_run)).
Proof.
  apply created_account_is_not_updated.
  apply Exists_exists.
  exists (CreateTenantCall "Example" "admin" "admin@example.com" "s3cret").
  split; run_concrete.
Defined.

(** The update call answers with another account: the stage hands on the
    account of the lookup with the values of the spec. *)
Lemma synced_tenant_keeps_the_lookup_answer_witness :
  result_of (reconcileTenant Cases.update_answers_other)
  = Ok (Tenant.mk (Signup.mk
          (Account.mk 1 "Example" "admin@example.com" "example-admin.example.com"))).
Proof.
  pose (r := Cases.update_answers_other).
  opose proof* (synced_tenant_keeps_the_lookup_answer r
                  (Tenant.mk (Signup.mk Scenario.old_account)) (world r)) as Hthm;
    [run_concrete|run_concrete|left; run_concrete|].
  cbv zeta in Hthm. destruct Hthm as (Htenant & _).
  unfold r in Htenant. rewrite Htenant. run_concrete.
Defined.

(** The admin has an old username: one update call with both fields. *)
Lemma admin_updated_exactly_on_drift_witness :
  ∃ pre post,
    events (Run Cases.drifted_admin)
    = pre ++ UpdateUserCall 1 1 (adminSyncParams Scenario.synced_tenant) :: post
    ∧ Forall (λ ev, is_UpdateUserCall ev = false) pre
    ∧ Forall (λ ev, is_UpdateUserCall ev = false) post.
Proof.
  pose (r := Cases.drifted_admin).
  pose (x1 := reconcileTenant r).
  pose (x2 := fetchAdminUser Scenario.shown_tenant (after x1)).
  opose proof* (admin_updated_exactly_on_drift r Scenario.shown_tenant
                  (after x1) (events x1) (show_user 1 Cases.old_admin)
                  (after x2) (events x2)) as Hthm;
    [run_concrete ..|].
  cbv zeta in Hthm. destruct Hthm as (_ & Hdrift & _).
  apply Hdrift; [left; run_concrete|intros Hpending; by vm_compute in Hpending].
Defined.

(** The admin of a new account, found by listing, is not updated. *)
Lemma admin_found_by_listing_is_not_updated_witness :
  Forall (λ ev, is_UpdateUserCall ev = false) (events (Run Scenario.first_run)).
Proof.
  pose (r := Scenario.first_run).
  pose (x1 := reconcileTenant r).
  pose (x2 := fetchAdminUser Scenario.created_tenant (after x1)).
  opose proof* (admin_found_by_listing_is_not_updated r Scenario.created_tenant
                  (after x1) (events x1) Scenario.created_admin
                  (after x2) (events x2)) as Hthm;
    [run_concrete ..|].
  exact (proj2 Hthm).
Defined.

(** The pending admin cannot be activated: the run ends at the activation. *)
Lemma activation_error_fails_the_run_witness :
  result_of (Run Cases.activation_refused) = Err Scenario.unavailable
  ∧ Forall (λ ev, is_UpdateUserCall ev = false) (events (Run Cases.activation_refused)).
Proof.
  pose (r := Cases.activation_refused).
  pose (x1 := reconcileTenant r).
  pose (x2 := fetchAdminUser Scenario.shown_tenant (after x1)).
  opose proof* (activation_error_fails_the_run r Scenario.shown_tenant
                  (after x1) (events x1) Cases.pending_admin
                  (after x2) (events x2) Scenario.unavailable (world (after x2))) as Hthm;
    [run_concrete ..|].
  destruct Hthm as (HRun & Hquiet). split; [|exact Hquiet].
  unfold r in HRun. by rewrite HRun.
Defined.

(** The users cannot be listed: the run ends at the listing. *)
Lemma listing_error_fails_the_run_witness :
  result_of (Run Cases.listing_refused) = Err Scenario.unavailable.
Proof.
  pose (r := Cases.listing_refused).
  pose (x1 := reconcileTenant r).
  opose proof* (listing_error_fails_the_run r Scenario.shown_tenant
                  (after x1) (events x1) Scenario.unavailable (world (after x1))) as Hthm;
    [run_concrete ..|].
  unfold r in Hthm. by rewrite Hthm.
Defined.

(** The status update call of the first run is its last event. *)
Lemma status_update_is_the_last_call_witness :
  List.last (events (Run Scenario.first_run)) (LogInfo "")
  = StatusUpdateCall (TenantCR.with_Status (TenantStatus.mk 1 1) Scenario.new_tenant).
Proof.
  pose (r := Scenario.first_run).
  opose proof* (status_update_is_the_last_call r
                  (List.removelast (events (Run r)))
                  (StatusUpdateCall
                     (TenantCR.with_Status (TenantStatus.mk 1 1) Scenario.new_tenant))
                  []) as Hthm;
    [run_concrete ..|].
  destruct Hthm as (_ & _). run_concrete.
Defined.

(** The calls of the first run on users and applications are on account 1. *)
Lemma calls_are_on_the_account_of_the_run_witness :
  Forall (λ ev, ∀ accountID, event_account ev = Some accountID → accountID = 1)
         (events (Run Scenario.first_run)).
Proof.
  pose (r := Scenario.first_run).
  pose (x1 := reconcileTenant r).
  apply (calls_are_on_the_account_of_the_run r Scenario.created_tenant
           (after x1) (events x1)).
  run_concrete.
Defined.

(** A synced tenant: three reads and nothing else. *)
Lemma in_sync_run_only_reads_witness :
  Run Cases.synced
  = (Ok tt, Cases.synced, in_sync_events Scenario.synced_tenant)
  ∧ Forall (λ ev, is_write ev = false) (events (Run Cases.synced)).
Proof.
  pose (r := Cases.synced).
  opose proof* (in_sync_run_only_reads r Scenario.shown_tenant (world r)
                  Scenario.admin1 (world r) Scenario.token_secret (world r)) as Hthm;
    [run_concrete ..|].
  cbv zeta in Hthm. destruct Hthm as (HRun & Hquiet & _).
  split; [exact HRun|exact Hquiet].
Defined.
